(** * Budget performance and alerting engine: a shallow embedding

    The development follows [backend/src/services/budgetService.ts]
    (class [BudgetService]).  JavaScript numbers are IEEE 754 binary64
    values, so amounts, thresholds and percentages are Rocq's primitive
    floats: division by zero, [NaN] and the rounding of every operation
    are those of the program.  Row identifiers are integers.

    The SQLite tables are lists of rows in table order; a row has the
    columns and types of the [Budget] interface, and the constraints of
    the schema are not part of the model.  Every service method is a
    function from a database state to a new state and the outcome of its
    promise.  A statement that reads the clock takes the value of
    [datetime('now')] as an argument. *)

From Stdlib Require Import ZArith List Bool String Lia Permutation Sorted.
From Stdlib Require Import Floats DecimalString.
Import ListNotations.
Local Open Scope string_scope.
Local Open Scope list_scope.
Local Open Scope Z_scope.

(** ** The numeric run-time functions the service calls *)

Module Js.

(** [x || 0] on numbers: [0], [-0] and [NaN] are falsy. *)
Definition truthy (x : float) : bool :=
  negb (PrimFloat.eqb x 0%float || PrimFloat.is_nan x).

(** The mathematical integer [floor (v + 1/2)] for [v = m * 2^e], [e < 0]. *)
Definition round_half_up (m e : Z) : Z :=
  Z.shiftr (2 * m + Z.shiftl 1 (- e)) (1 - e).

(** A float from an integer of magnitude below [2^53] (exact). *)
Definition of_Z (n : Z) : float :=
  let a := PrimFloat.of_uint63 (Uint63.of_Z (Z.abs n)) in
  if n <? 0 then PrimFloat.opp a else a.

(** [Math.round]: the integral value closest to [x], ties towards
    [+Infinity]; [NaN], the infinities and integral values are returned
    unchanged, and a result of zero keeps the sign of [x]. *)
Definition Math_round (x : float) : float :=
  match Prim2SF x with
  | S754_finite s m e =>
      if 0 <=? e then x
      else
        let n := round_half_up (if s then Z.neg m else Z.pos m) e in
        if n =? 0 then (if s then PrimFloat.neg_zero else PrimFloat.zero)
        else of_Z n
  | _ => x
  end.

(** Decimal digits of a natural number, ["0"] for zero. *)
Definition digits (n : Z) : string :=
  NilZero.string_of_uint (N.to_uint (Z.to_N n)).

(** The part of [Number.prototype.toFixed(2)] that prints: [n] hundredths
    as an integer part, a point and two decimals. *)
Definition hundredths (n : Z) : string :=
  let frac := digits (n mod 100) in
  let pad := if n mod 100 <? 10 then "0" else "" in
  String.append (digits (n / 100)) (String.append "." (String.append pad frac)).

(** The integer [n] with [n / 100] closest to [|x|], the larger on a tie. *)
Definition scaled_hundredths (m : positive) (e : Z) : Z :=
  if 0 <=? e then Z.shiftl (100 * Z.pos m) e
  else round_half_up (100 * Z.pos m) e.

Section Runtime.

(** [Number::toString] of the run time; the service is verified for
    whatever it prints. *)
Variable Number_toString : float -> string.

(** [x.toFixed(2)]: a non-finite [x] or one of magnitude [1e21] or more
    is printed by [Number::toString]; a negative [x] prints a sign. *)
Definition toFixed2 (x : float) : string :=
  match Prim2SF x with
  | S754_zero _ => "0.00"
  | S754_finite s m e =>
      if PrimFloat.ltb (PrimFloat.abs x) 1e21%float then
        String.append (if s then "-" else "") (hundredths (scaled_hundredths m e))
      else Number_toString x
  | _ => Number_toString x
  end.

End Runtime.

(** [Number::toString] on the values whose printing is plain: [NaN], the
    infinities, and integral values below [1e21] (decimal digits, no sign
    for zero).  Other values are outside its domain and print as [?];
    it instantiates the run time in the worked examples. *)
Definition integral_toString (x : float) : string :=
  match Prim2SF x with
  | S754_nan => "NaN"
  | S754_infinity s => if s then "-Infinity" else "Infinity"
  | S754_zero _ => "0"
  | S754_finite s m e =>
      let n := Z.shiftl (Z.pos m) e in
      if (Z.shiftl n (- e) =? Z.pos m) && PrimFloat.ltb (PrimFloat.abs x) 1e21%float
      then String.append (if s then "-" else "") (digits n)
      else "?"
  end.

End Js.

(** ** Data model *)

Inductive Period := weekly | monthly | yearly.

(** A row of table [budgets], as [SELECT *] returns it: every column is
    set, [category] may be [NULL], and [isActive] is the stored integer. *)
Module Budget.
Record t := mk {
  id : Z;
  userId : Z;
  name : string;
  amount : float;
  category : option string;
  period : Period;
  startDate : string;
  endDate : string;
  alertThreshold : float;
  isActive : Z;
  createdAt : string;
  updatedAt : string
}.
End Budget.

(** [Omit<Budget, 'id' | 'userId'>], the argument of [createBudget]; its
    optional time stamps are never read and are left out. *)
Module BudgetData.
Record t := mk {
  name : string;
  amount : float;
  category : option string;
  period : Period;
  startDate : string;
  endDate : string;
  alertThreshold : float;
  isActive : bool
}.
End BudgetData.

(** One entry [[key, value]] of [Object.entries(updates)] for
    [updates : Partial<Budget>]: any key of the interface, with a value of
    the type the interface gives it. *)
Inductive BudgetField :=
| f_id (v : Z)
| f_userId (v : Z)
| f_name (v : string)
| f_amount (v : float)
| f_category (v : string)
| f_period (v : Period)
| f_startDate (v : string)
| f_endDate (v : string)
| f_alertThreshold (v : float)
| f_isActive (v : bool)
| f_createdAt (v : string)
| f_updatedAt (v : string).

Definition key (f : BudgetField) : string :=
  match f with
  | f_id _ => "id"
  | f_userId _ => "userId"
  | f_name _ => "name"
  | f_amount _ => "amount"
  | f_category _ => "category"
  | f_period _ => "period"
  | f_startDate _ => "startDate"
  | f_endDate _ => "endDate"
  | f_alertThreshold _ => "alertThreshold"
  | f_isActive _ => "isActive"
  | f_createdAt _ => "createdAt"
  | f_updatedAt _ => "updatedAt"
  end.

(** A row of table [expenses], with the columns the service reads. *)
Module Expense.
Record t := mk {
  userId : Z;
  amount : float;
  category : string;
  purchase_date : string
}.
End Expense.

Module Status.
Inductive t := under | warning | over.
Definition eqb (a b : t) : bool :=
  match a, b with
  | under, under | warning, warning | over, over => true
  | _, _ => false
  end.
End Status.

Module AlertLevel.
Inductive t := warning | danger | exceeded.
End AlertLevel.

Module BudgetAlert.
Record t := mk {
  budgetId : Z;
  budgetName : string;
  currentSpent : float;
  budgetAmount : float;
  percentageUsed : float;
  alertLevel : AlertLevel.t;
  message : string
}.
End BudgetAlert.

Module BudgetPerformance.
Record t := mk {
  budgetId : Z;
  name : string;
  budgetAmount : float;
  spent : float;
  remaining : float;
  percentageUsed : float;
  status : Status.t
}.
End BudgetPerformance.

Module BudgetAnalysis.
Record t := mk {
  totalBudgets : nat;
  activeBudgets : nat;
  totalBudgetAmount : float;
  totalSpent : float;
  overBudgetCount : nat;
  savings : float;
  budgetPerformance : list BudgetPerformance.t
}.
End BudgetAnalysis.

(** The database: both tables in row order, and the largest row id table
    [budgets] ever held ([AUTOINCREMENT] never reuses one). *)
Record Database := mkDatabase {
  budgets : list Budget.t;
  budgets_seq : Z;
  expenses : list Expense.t
}.

(** The outcome of an [async] method: the promise resolves with a value or
    rejects with an [Error] carrying a message. *)
Inductive Result (A : Type) :=
| Resolved (value : A)
| Rejected (message : string).
Arguments Resolved {A} value.
Arguments Rejected {A} message.

(** ** The statements the service sends to the store *)

Definition matches (budgetId userId : Z) (b : Budget.t) : bool :=
  (Budget.id b =? budgetId) && (Budget.userId b =? userId).

(** [SET key = value] on one row, for any column. *)
Definition set_column (f : BudgetField) (b : Budget.t) : Budget.t :=
  let '(Budget.mk i u n a c p s e t act cr up) := b in
  match f with
  | f_id v => Budget.mk v u n a c p s e t act cr up
  | f_userId v => Budget.mk i v n a c p s e t act cr up
  | f_name v => Budget.mk i u v a c p s e t act cr up
  | f_amount v => Budget.mk i u n v c p s e t act cr up
  | f_category v => Budget.mk i u n a (Some v) p s e t act cr up
  | f_period v => Budget.mk i u n a c v s e t act cr up
  | f_startDate v => Budget.mk i u n a c p v e t act cr up
  | f_endDate v => Budget.mk i u n a c p s v t act cr up
  | f_alertThreshold v => Budget.mk i u n a c p s e v act cr up
  | f_isActive v => Budget.mk i u n a c p s e t (if v then 1 else 0) cr up
  | f_createdAt v => Budget.mk i u n a c p s e t act v up
  | f_updatedAt v => Budget.mk i u n a c p s e t act cr v
  end.

Definition set_updatedAt (now : string) (b : Budget.t) : Budget.t :=
  set_column (f_updatedAt now) b.

(** [UPDATE budgets SET ..., updatedAt = datetime('now') WHERE id = ? AND
    userId = ?]; [now] is what [datetime('now')] evaluates to. *)
Definition sql_update (setClause : list BudgetField) (now : string)
    (budgetId userId : Z) (rows : list Budget.t) : list Budget.t :=
  map (fun b =>
         if matches budgetId userId b
         then set_updatedAt now (fold_left (fun r f => set_column f r) setClause b)
         else b) rows.

(** [DELETE FROM budgets WHERE id = ? AND userId = ?]. *)
Definition sql_delete (budgetId userId : Z) (rows : list Budget.t) : list Budget.t :=
  filter (fun b => negb (matches budgetId userId b)) rows.

(** The row id an [INSERT] gets: one more than the largest ever used. *)
Definition max_id (rows : list Budget.t) : Z :=
  fold_right (fun b m => Z.max (Budget.id b) m) 0 rows.

Definition next_id (db : Database) : Z :=
  Z.max (budgets_seq db) (max_id (budgets db)) + 1.

(** [ORDER BY createdAt DESC]: text comparison, rows with equal keys in
    table order. *)
Fixpoint insert_desc (b : Budget.t) (l : list Budget.t) : list Budget.t :=
  match l with
  | [] => [b]
  | x :: r =>
      if String.leb (Budget.createdAt x) (Budget.createdAt b)
      then b :: x :: r
      else x :: insert_desc b r
  end.

Definition order_by_createdAt_desc (l : list Budget.t) : list Budget.t :=
  fold_right insert_desc [] l.

(** [SUM(amount)]: [NULL] over no row.  The additions are taken left to
    right in binary64; the store may compensate their rounding, which
    leaves a sum of small integers as it is. *)
Definition sql_sum (l : list float) : option float :=
  match l with
  | [] => None
  | _ => Some (fold_left PrimFloat.add l 0%float)
  end.

Definition coalesce (v : option float) (d : float) : float :=
  match v with Some x => x | None => d end.

(** Truthiness of the values the service tests. *)
Definition truthy_string (s : option string) : option string :=
  match s with
  | Some "" => None
  | _ => s
  end.

Definition truthy_int (n : Z) : bool := negb (n =? 0).

Fixpoint includes (l : list string) (k : string) : bool :=
  match l with
  | [] => false
  | x :: r => String.eqb x k || includes r k
  end.

(** ** The service *)

Section BudgetService.

(** SQLite's [date()], which normalises a time string or yields [NULL],
    and the run time's [Number::toString] are outside the repository:
    the service is verified for any behaviour of either. *)
Variable sql_date : string -> option string.
Variable Number_toString : float -> string.

Definition getBudgetById (db : Database) (budgetId : Z) : option Budget.t :=
  find (fun b => Budget.id b =? budgetId) (budgets db).

(** The outcome is the one the method is written for: [run] reporting the
    id of the inserted row as [lastID].  With a [run] that resolves with
    nothing the method rejects after the [INSERT]; the stored state is the
    same, and the theorems on [createBudget] speak of the stored state. *)
Definition createBudget (now : string) (userId : Z) (budgetData : BudgetData.t)
    (db : Database) : Database * Result (option Budget.t) :=
  let lastID := next_id db in
  let row :=
    Budget.mk lastID userId
      (BudgetData.name budgetData)
      (BudgetData.amount budgetData)
      (truthy_string (BudgetData.category budgetData))
      (BudgetData.period budgetData)
      (BudgetData.startDate budgetData)
      (BudgetData.endDate budgetData)
      (BudgetData.alertThreshold budgetData)
      (if BudgetData.isActive budgetData then 1 else 0)
      now now in
  let db' := mkDatabase (budgets db ++ [row]) lastID (expenses db) in
  (db', Resolved (getBudgetById db' lastID)).

Definition getUserBudgets (db : Database) (userId : Z) : list Budget.t :=
  order_by_createdAt_desc
    (filter (fun b => Budget.userId b =? userId) (budgets db)).

Definition allowedFields : list string :=
  ["name"; "amount"; "category"; "period"; "startDate"; "endDate";
   "alertThreshold"; "isActive"].

Definition updateBudget (now : string) (budgetId userId : Z)
    (updates : list BudgetField) (db : Database)
    : Database * Result (option Budget.t) :=
  let setClause := filter (fun f => includes allowedFields (key f)) updates in
  if (List.length setClause =? 0)%nat then
    (db, Rejected "No valid fields to update")
  else
    let db' :=
      mkDatabase (sql_update setClause now budgetId userId (budgets db))
                 (budgets_seq db) (expenses db) in
    (db', Resolved (getBudgetById db' budgetId)).

Definition deleteBudget (budgetId userId : Z) (db : Database)
    : Database * Result unit :=
  (mkDatabase (sql_delete budgetId userId (budgets db))
              (budgets_seq db) (expenses db),
   Resolved tt).

(** [date(purchase_date) BETWEEN date(?) AND date(?)]: false as soon as
    one of the three dates is [NULL]. *)
Definition date_between (d lo hi : string) : bool :=
  match sql_date d, sql_date lo, sql_date hi with
  | Some d', Some lo', Some hi' => String.leb lo' d' && String.leb d' hi'
  | _, _, _ => false
  end.

Definition calculateBudgetSpent (db : Database) (userId : Z) (budget : Budget.t)
    : float :=
  let where_ (e : Expense.t) :=
    (Expense.userId e =? userId)
    && date_between (Expense.purchase_date e)
                    (Budget.startDate budget) (Budget.endDate budget)
    && match truthy_string (Budget.category budget) with
       | Some c => String.eqb (Expense.category e) c
       | None => true
       end in
  let total :=
    coalesce (sql_sum (map Expense.amount (filter where_ (expenses db)))) 0 in
  if Js.truthy total then total else 0%float.

(** The percentage both evaluations compute, before any rounding. *)
Definition percentage (spent : float) (budget : Budget.t) : float :=
  (spent / Budget.amount budget * 100)%float.

(** [Math.round(percentageUsed * 100) / 100]. *)
Definition round2 (percentageUsed : float) : float :=
  (Js.Math_round (percentageUsed * 100) / 100)%float.

(** The body of the loop of [getBudgetAnalysis]. *)
Definition analysis_step (db : Database) (userId : Z)
    (analysis : BudgetAnalysis.t) (budget : Budget.t) : BudgetAnalysis.t :=
  let spent := calculateBudgetSpent db userId budget in
  let remaining := (Budget.amount budget - spent)%float in
  let percentageUsed := percentage spent budget in
  let status :=
    if (100 <=? percentageUsed)%float then Status.over
    else if (Budget.alertThreshold budget <=? percentageUsed)%float
         then Status.warning
         else Status.under in
  BudgetAnalysis.mk
    (BudgetAnalysis.totalBudgets analysis)
    (BudgetAnalysis.activeBudgets analysis)
    (BudgetAnalysis.totalBudgetAmount analysis)
    (BudgetAnalysis.totalSpent analysis + spent)%float
    (if Status.eqb status Status.over
     then S (BudgetAnalysis.overBudgetCount analysis)
     else BudgetAnalysis.overBudgetCount analysis)
    (BudgetAnalysis.savings analysis)
    (BudgetAnalysis.budgetPerformance analysis
     ++ [BudgetPerformance.mk (Budget.id budget) (Budget.name budget)
           (Budget.amount budget) spent remaining
           (round2 percentageUsed) status]).

Definition getBudgetAnalysis (db : Database) (userId : Z)
    : Result BudgetAnalysis.t :=
  let budgets := getUserBudgets db userId in
  let activeBudgets := filter (fun b => truthy_int (Budget.isActive b)) budgets in
  let analysis :=
    BudgetAnalysis.mk
      (List.length budgets)
      (List.length activeBudgets)
      (fold_left (fun sum b => (sum + Budget.amount b)%float) activeBudgets 0%float)
      0%float 0%nat 0%float [] in
  let analysis := fold_left (analysis_step db userId) activeBudgets analysis in
  Resolved
    (BudgetAnalysis.mk
       (BudgetAnalysis.totalBudgets analysis)
       (BudgetAnalysis.activeBudgets analysis)
       (BudgetAnalysis.totalBudgetAmount analysis)
       (BudgetAnalysis.totalSpent analysis)
       (BudgetAnalysis.overBudgetCount analysis)
       (BudgetAnalysis.totalBudgetAmount analysis
        - BudgetAnalysis.totalSpent analysis)%float
       (BudgetAnalysis.budgetPerformance analysis)).

(** The three message templates of [getBudgetAlerts]. *)
Definition message_used (percentageUsed : float) (name : string) : string :=
  String.concat ""
    ["You've used "; Number_toString (Js.Math_round percentageUsed);
     "% of your "; name; " budget"].

Definition message_exceeded (spent : float) (budget : Budget.t) : string :=
  String.concat ""
    ["You've exceeded your "; Budget.name budget; " budget by $";
     Js.toFixed2 Number_toString (spent - Budget.amount budget)%float].

Definition message_close (percentageUsed : float) (name : string) : string :=
  String.concat ""
    ["You're close to exceeding your "; name; " budget (";
     Number_toString (Js.Math_round percentageUsed); "% used)"].

(** The body of the loop of [getBudgetAlerts]. *)
Definition alerts_step (db : Database) (userId : Z)
    (alerts : list BudgetAlert.t) (budget : Budget.t) : list BudgetAlert.t :=
  let spent := calculateBudgetSpent db userId budget in
  let percentageUsed := percentage spent budget in
  if (Budget.alertThreshold budget <=? percentageUsed)%float then
    let '(alertLevel, message) :=
      if (100 <=? percentageUsed)%float then
        (AlertLevel.exceeded, message_exceeded spent budget)
      else if (90 <=? percentageUsed)%float then
        (AlertLevel.danger, message_close percentageUsed (Budget.name budget))
      else
        (AlertLevel.warning, message_used percentageUsed (Budget.name budget)) in
    alerts ++ [BudgetAlert.mk (Budget.id budget) (Budget.name budget) spent
                 (Budget.amount budget) (round2 percentageUsed)
                 alertLevel message]
  else alerts.

Definition getBudgetAlerts (db : Database) (userId : Z)
    : Result (list BudgetAlert.t) :=
  let budgets := getUserBudgets db userId in
  let activeBudgets := filter (fun b => truthy_int (Budget.isActive b)) budgets in
  Resolved (fold_left (alerts_step db userId) activeBudgets []).

(** ** Sample data for the worked examples *)

(** [date()] on dates already written [YYYY-MM-DD], the only form the
    examples use; it instantiates the store's function there. *)
Definition iso_date (s : string) : option string :=
  if (String.length s =? 10)%nat then Some s else None.

Definition sample_budget (id userId : Z) (name : string) (amount : float)
    (category : option string) (alertThreshold : float) (isActive : Z)
    (createdAt : string) : Budget.t :=
  Budget.mk id userId name amount category monthly "2025-01-01" "2025-01-31"
    alertThreshold isActive createdAt createdAt.

Definition food_budget (amount alertThreshold : float) : Budget.t :=
  sample_budget 1 1 "Food" amount None alertThreshold 1 "2025-01-01 08:00:00".

(** User 1 with one active budget and one expense in its date range. *)
Definition one_budget_db (amount alertThreshold spent : float) : Database :=
  mkDatabase
    [food_budget amount alertThreshold]
    1
    [Expense.mk 1 spent "Groceries" "2025-01-15"].

(** User 1 with two active budgets and an inactive one; expenses of another
    user and outside the date range. *)
Definition portfolio_db : Database :=
  mkDatabase
    [sample_budget 1 1 "Groceries" 300 (Some "Groceries") 80 1 "2025-01-01 08:00:00";
     sample_budget 2 1 "Snacks" 200 (Some "Snacks") 80 1 "2025-01-02 08:00:00";
     sample_budget 3 1 "Old" 1000 None 80 0 "2025-01-03 08:00:00"]
    3
    [Expense.mk 1 100 "Groceries" "2025-01-10";
     Expense.mk 1 250 "Snacks" "2025-01-31";
     Expense.mk 2 999 "Snacks" "2025-01-12";
     Expense.mk 1 40 "Snacks" "2025-02-01"].

(** Budget 1 belongs to user 2. *)
Definition other_owner_db : Database :=
  mkDatabase
    [sample_budget 1 2 "Rent" 900 None 80 1 "2025-01-01 08:00:00"]
    1 [].

Definition empty_db : Database := mkDatabase [] 0 [].

(** The data of the test [should validate budget data before creation]. *)
Definition invalidBudgetData : BudgetData.t :=
  BudgetData.mk "" (-100) None monthly "2025-01-01" "2024-12-31" 150 true.

(** ** Definitions the statements use *)

(** The user's active budgets, as both methods select them. *)
Definition active (db : Database) (userId : Z) : list Budget.t :=
  filter (fun b => truthy_int (Budget.isActive b)) (getUserBudgets db userId).

(** The record the loop of [getBudgetAnalysis] pushes for one budget. *)
Definition performance_of (db : Database) (userId : Z) (budget : Budget.t)
    : BudgetPerformance.t :=
  match
    BudgetAnalysis.budgetPerformance
      (analysis_step db userId
         (BudgetAnalysis.mk 0 0 0%float 0%float 0 0%float []) budget)
  with
  | [p] => p
  | _ => BudgetPerformance.mk 0 "" 0%float 0%float 0%float 0%float Status.under
  end.

Definition is_over (p : BudgetPerformance.t) : bool :=
  Status.eqb (BudgetPerformance.status p) Status.over.


(** [updates] has an entry for key [k]. *)
Definition supplied (k : string) (updates : list BudgetField) : bool :=
  existsb (fun f => String.eqb (key f) k) updates.

(** What an update with entries [updates] may not touch between a row [b]
    and its new value [b']: the identity columns, and every updatable
    column for which [updates] has no entry. *)
Definition frame (updates : list BudgetField) (b b' : Budget.t) : Prop :=
  Budget.id b' = Budget.id b
  /\ Budget.userId b' = Budget.userId b
  /\ Budget.createdAt b' = Budget.createdAt b
  /\ (supplied "name" updates = false -> Budget.name b' = Budget.name b)
  /\ (supplied "amount" updates = false -> Budget.amount b' = Budget.amount b)
  /\ (supplied "category" updates = false
      -> Budget.category b' = Budget.category b)
  /\ (supplied "period" updates = false -> Budget.period b' = Budget.period b)
  /\ (supplied "startDate" updates = false
      -> Budget.startDate b' = Budget.startDate b)
  /\ (supplied "endDate" updates = false -> Budget.endDate b' = Budget.endDate b)
  /\ (supplied "alertThreshold" updates = false
      -> Budget.alertThreshold b' = Budget.alertThreshold b)
  /\ (supplied "isActive" updates = false
      -> Budget.isActive b' = Budget.isActive b).

Definition allowed (f : BudgetField) : bool := includes allowedFields (key f).

(** [a] may stand before [b] under [ORDER BY createdAt DESC]. *)
Definition not_older (a b : Budget.t) : Prop :=
  String.leb (Budget.createdAt b) (Budget.createdAt a) = true.

Definition not_under (p : BudgetPerformance.t) : bool :=
  negb (Status.eqb (BudgetPerformance.status p) Status.under).

Definition is_exceeded (al : BudgetAlert.t) : bool :=
  match BudgetAlert.alertLevel al with
  | AlertLevel.exceeded => true
  | _ => false
  end.

(** The rows of the two tables that belong to a user. *)
Definition own_budgets (userId : Z) (db : Database) : list Budget.t :=
  filter (fun b => Budget.userId b =? userId) (budgets db).

Definition own_expenses (userId : Z) (db : Database) : list Expense.t :=
  filter (fun e => Expense.userId e =? userId) (expenses db).

(** The portfolio seen by user 1, with other rows for user 2. *)
Definition portfolio_variant_db : Database :=
  mkDatabase
    (sample_budget 9 2 "Travel" 50 None 10 1 "2025-01-05 08:00:00"
     :: budgets portfolio_db)
    9
    [Expense.mk 1 100 "Groceries" "2025-01-10";
     Expense.mk 2 5 "Travel" "2025-01-11";
     Expense.mk 1 250 "Snacks" "2025-01-31";
     Expense.mk 1 40 "Snacks" "2025-02-01"].

(** Values that are not finite. *)
Definition not_finite (f : spec_float) : bool :=
  match f with
  | S754_nan | S754_infinity _ => true
  | _ => false
  end.

(** The rank of a value that is not [NaN], and the order of ranks. *)
Definition lex3 (a b : Z * Z * Z) : comparison :=
  let '(a1, a2, a3) := a in
  let '(b1, b2, b3) := b in
  match a1 ?= b1 with
  | Eq => match a2 ?= b2 with
          | Eq => a3 ?= b3
          | c => c
          end
  | c => c
  end.

Definition rank (f : spec_float) : option (Z * Z * Z) :=
  match f with
  | S754_nan => None
  | S754_infinity s => Some (if s then -2 else 2, 0, 0)
  | S754_zero _ => Some (0, 0, 0)
  | S754_finite s m e => Some (if s then (-1, - e, Z.neg m) else (1, e, Z.pos m))
  end.

Definition rank_compare (x y : spec_float) : option comparison :=
  match rank x, rank y with
  | Some a, Some b => Some (lex3 a b)
  | _, _ => None
  end.

(** [n - 1/2 <= v < n + 1/2] for the value [v = m * 2^e] signed by [s],
    written without fractions for [e < 0]: [n] is the integer nearest to
    [v], the larger one when two are as near. *)
Definition nearest_half_up (s : bool) (m : positive) (e n : Z) : Prop :=
  (2 * n - 1) * 2 ^ (- e) <= 2 * (if s then Z.neg m else Z.pos m)
  /\ 2 * (if s then Z.neg m else Z.pos m) < (2 * n + 1) * 2 ^ (- e).

(** [q] is [y] rounded to an integer in the words of [Math.round]: a value
    that is not finite, a zero or an integral value is kept; otherwise [q]
    is the nearest integer, the larger of two, and a zero result has the
    sign of [y]. *)
Definition rounded_to_integer (y q : float) : Prop :=
  match Prim2SF y with
  | S754_finite s m e =>
      if 0 <=? e then q = y
      else exists n,
             nearest_half_up s m e n
             /\ q = (if n =? 0
                     then (if s then PrimFloat.neg_zero else PrimFloat.zero)
                     else Js.of_Z n)
  | _ => q = y
  end.

(** The rows of [expenses] the query of [calculateBudgetSpent] selects. *)
Definition spent_rows (db : Database) (userId : Z) (budget : Budget.t)
    : list Expense.t :=
  filter
    (fun e =>
       (Expense.userId e =? userId)
       && date_between (Expense.purchase_date e)
            (Budget.startDate budget) (Budget.endDate budget)
       && match truthy_string (Budget.category budget) with
          | Some c => String.eqb (Expense.category e) c
          | None => true
          end)
    (expenses db).

(** Row [b] holds, in the column of entry [f], the value [f] gives it. *)
Definition in_force (f : BudgetField) (b : Budget.t) : Prop :=
  match f with
  | f_id v => Budget.id b = v
  | f_userId v => Budget.userId b = v
  | f_name v => Budget.name b = v
  | f_amount v => Budget.amount b = v
  | f_category v => Budget.category b = Some v
  | f_period v => Budget.period b = v
  | f_startDate v => Budget.startDate b = v
  | f_endDate v => Budget.endDate b = v
  | f_alertThreshold v => Budget.alertThreshold b = v
  | f_isActive v => Budget.isActive b = (if v then 1 else 0)
  | f_createdAt v => Budget.createdAt b = v
  | f_updatedAt v => Budget.updatedAt b = v
  end.

(** The [percentageUsed] of the records of an analysis. *)
Definition percentages (r : Result BudgetAnalysis.t) : list float :=
  match r with
  | Resolved a =>
      map BudgetPerformance.percentageUsed (BudgetAnalysis.budgetPerformance a)
  | Rejected _ => []
  end.

(** User 1 with January expenses in three categories, one expense in
    February and one of user 2. *)
Definition three_category_db : Database :=
  mkDatabase []
    0
    [Expense.mk 1 100 "Groceries" "2025-01-10";
     Expense.mk 1 250 "Snacks" "2025-01-20";
     Expense.mk 2 999 "Snacks" "2025-01-21";
     Expense.mk 1 40 "Bakery" "2025-01-31";
     Expense.mk 1 7 "Bakery" "2025-02-01"].

(** ** Order of binary64 values

    Comparisons are read through [Prim2SF]: a value that is not [NaN] is
    ranked by a triple of integers ordered lexicographically. *)

Lemma SFcompare_rank (x y : spec_float) : SFcompare x y = rank_compare x y.
Proof.
  unfold rank_compare.
  destruct x as [sx | sx | | sx mx ex], y as [sy | sy | | sy my ey];
    try reflexivity;
    try (destruct sx; reflexivity);
    try (destruct sy; reflexivity);
    try (destruct sx, sy; reflexivity).
  destruct sx, sy; try reflexivity; cbn [SFcompare rank lex3].
  rewrite Z.compare_opp, (Z.compare_antisym ex ey).
  destruct (ex ?= ey); reflexivity.
Qed.

Lemma lex3_lt (a b : Z * Z * Z) :
  lex3 a b = Lt <->
  let '(a1, a2, a3) := a in
  let '(b1, b2, b3) := b in
  a1 < b1 \/ (a1 = b1 /\ (a2 < b2 \/ (a2 = b2 /\ a3 < b3))).
Proof.
  destruct a as [[a1 a2] a3], b as [[b1 b2] b3]; unfold lex3.
  destruct (Z.compare_spec a1 b1), (Z.compare_spec a2 b2), (Z.compare_spec a3 b3);
    split; intros Hc; try discriminate; try reflexivity; lia.
Qed.

Lemma lex3_eq (a b : Z * Z * Z) : lex3 a b = Eq <-> a = b.
Proof.
  destruct a as [[a1 a2] a3], b as [[b1 b2] b3]; unfold lex3.
  destruct (Z.compare_spec a1 b1), (Z.compare_spec a2 b2), (Z.compare_spec a3 b3);
    split; intros Hc; try discriminate; try reflexivity;
    try (inversion Hc; lia); subst; reflexivity.
Qed.

(** [<?] and [<=?] in terms of ranks, then the order facts the
    classification proofs use. *)

Lemma ltb_true (x y : float) :
  (x <? y)%float = true <->
  exists a b, rank (Prim2SF x) = Some a /\ rank (Prim2SF y) = Some b /\ lex3 a b = Lt.
Proof.
  rewrite ltb_spec; unfold SFltb; rewrite SFcompare_rank; unfold rank_compare.
  destruct (rank (Prim2SF x)) as [a |], (rank (Prim2SF y)) as [b |].
  - split.
    + intros H; exists a, b; repeat split; destruct (lex3 a b); congruence.
    + intros (a' & b' & Ha & Hb & H); inversion Ha; inversion Hb; subst.
      now rewrite H.
  - split; [discriminate | intros (? & ? & _ & ? & _); discriminate].
  - split; [discriminate | intros (? & ? & ? & _); discriminate].
  - split; [discriminate | intros (? & ? & ? & _); discriminate].
Qed.

Lemma leb_true (x y : float) :
  (x <=? y)%float = true <->
  exists a b, rank (Prim2SF x) = Some a /\ rank (Prim2SF y) = Some b
              /\ (lex3 a b = Lt \/ a = b).
Proof.
  rewrite leb_spec; unfold SFleb; rewrite SFcompare_rank; unfold rank_compare.
  destruct (rank (Prim2SF x)) as [a |], (rank (Prim2SF y)) as [b |].
  - split.
    + intros H; exists a, b; repeat split.
      destruct (lex3 a b) eqn:E; auto; [right; now apply lex3_eq | discriminate].
    + intros (a' & b' & Ha & Hb & H); inversion Ha; inversion Hb; subst.
      destruct H as [H | H]; [| apply lex3_eq in H]; now rewrite H.
  - split; [discriminate | intros (? & ? & _ & ? & _); discriminate].
  - split; [discriminate | intros (? & ? & ? & _); discriminate].
  - split; [discriminate | intros (? & ? & ? & _); discriminate].
Qed.

Lemma ltb_leb_asym (x y : float) :
  (x <? y)%float = true -> (y <=? x)%float = false.
Proof.
  intros H. apply ltb_true in H. destruct H as (a & b & Ha & Hb & H).
  destruct (y <=? x)%float eqn:E; [exfalso | reflexivity].
  apply leb_true in E. destruct E as (b' & a' & Hb' & Ha' & E).
  rewrite Ha in Ha'; rewrite Hb in Hb'; inversion Ha'; inversion Hb'; subst.
  apply lex3_lt in H.
  destruct E as [E | E].
  - apply lex3_lt in E.
    destruct a' as [[a1 a2] a3], b' as [[b1 b2] b3]; lia.
  - subst. destruct a' as [[a1 a2] a3]; lia.
Qed.

Lemma ltb_leb_trans (x y z : float) :
  (x <? y)%float = true -> (y <=? z)%float = true -> (x <? z)%float = true.
Proof.
  intros H1 H2.
  apply ltb_true in H1. destruct H1 as (a & b & Ha & Hb & H1).
  apply leb_true in H2. destruct H2 as (b' & c & Hb' & Hc & H2).
  rewrite Hb in Hb'; inversion Hb'; subst b'.
  apply ltb_true. exists a, c. repeat split; trivial.
  destruct H2 as [H2 | H2]; [| now subst].
  apply lex3_lt in H1, H2. apply lex3_lt.
  destruct a as [[a1 a2] a3], b as [[b1 b2] b3], c as [[c1 c2] c3]; lia.
Qed.

Lemma leb_trans (x y z : float) :
  (x <=? y)%float = true -> (y <=? z)%float = true -> (x <=? z)%float = true.
Proof.
  intros H1 H2.
  apply leb_true in H1. destruct H1 as (a & b & Ha & Hb & H1).
  apply leb_true in H2. destruct H2 as (b' & c & Hb' & Hc & H2).
  rewrite Hb in Hb'; inversion Hb'; subst b'.
  apply leb_true. exists a, c. repeat split; trivial.
  destruct H1 as [H1 | H1]; [| now subst].
  destruct H2 as [H2 | H2]; [| subst; now left].
  left. apply lex3_lt in H1, H2. apply lex3_lt.
  destruct a as [[a1 a2] a3], b as [[b1 b2] b3], c as [[c1 c2] c3]; lia.
Qed.

Lemma leb_false_ltb (x y z : float) :
  (z <=? x)%float = true -> (y <=? y)%float = true ->
  (y <=? x)%float = false -> (x <? y)%float = true.
Proof.
  intros Hx Hy H.
  apply leb_true in Hx. destruct Hx as (c & a & _ & Ha & _).
  apply leb_true in Hy. destruct Hy as (b & b' & Hb & _ & _).
  apply ltb_true. exists a, b. repeat split; trivial.
  destruct (lex3 a b) eqn:E; trivial; exfalso;
    (enough ((y <=? x)%float = true) by congruence);
    apply leb_true; exists b, a; repeat split; trivial.
  - right. apply lex3_eq in E. now subst.
  - left. apply lex3_lt.
    assert (Hlt : lex3 a b <> Lt) by congruence.
    assert (Hne : a <> b) by (rewrite <- lex3_eq; congruence).
    rewrite lex3_lt in Hlt.
    destruct a as [[a1 a2] a3], b as [[b1 b2] b3].
    assert (a1 <> b1 \/ a2 <> b2 \/ a3 <> b3).
    { destruct (Z.eq_dec a1 b1), (Z.eq_dec a2 b2), (Z.eq_dec a3 b3);
        subst; auto; now contradiction Hne. }
    lia.
Qed.

(** ** Values that are not finite *)

Lemma Prim2SF_100 : exists m e, Prim2SF 100%float = S754_finite false m e.
Proof. eexists; eexists; vm_compute; reflexivity. Qed.

Lemma not_finite_is_finite (x : float) :
  not_finite (Prim2SF x) = true -> PrimFloat.is_finite x = false.
Proof.
  intros H. unfold PrimFloat.is_finite, PrimFloat.is_nan, PrimFloat.is_infinity.
  rewrite !eqb_spec, abs_spec.
  destruct (Prim2SF x) as [s | s | | s m e]; try discriminate;
    [destruct s |]; reflexivity.
Qed.

Lemma eqb_zero (a : float) :
  (a =? 0)%float = true -> exists s, Prim2SF a = S754_zero s.
Proof.
  rewrite eqb_spec. change (Prim2SF 0%float) with (S754_zero false).
  destruct (Prim2SF a) as [s | s | | s m e]; try discriminate.
  - intros _; now exists s.
  - destruct s; discriminate.
  - destruct s; discriminate.
Qed.

Lemma div_zero_not_finite (x a : float) :
  (a =? 0)%float = true -> not_finite (Prim2SF (x / a)) = true.
Proof.
  intros H. destruct (eqb_zero a H) as [s Hs].
  rewrite div_spec, Hs. unfold SF64div.
  destruct (Prim2SF x); reflexivity.
Qed.

Lemma mul_100_not_finite (x : float) :
  not_finite (Prim2SF x) = true -> not_finite (Prim2SF (x * 100)) = true.
Proof.
  intros H. destruct Prim2SF_100 as (m & e & H100).
  rewrite mul_spec, H100. unfold SF64mul.
  destruct (Prim2SF x); try discriminate; reflexivity.
Qed.

Lemma div_100_not_finite (x : float) :
  not_finite (Prim2SF x) = true -> not_finite (Prim2SF (x / 100)) = true.
Proof.
  intros H. destruct Prim2SF_100 as (m & e & H100).
  rewrite div_spec, H100. unfold SF64div.
  destruct (Prim2SF x); try discriminate; reflexivity.
Qed.

Lemma Math_round_not_finite (x : float) :
  not_finite (Prim2SF x) = true -> Js.Math_round x = x.
Proof.
  unfold Js.Math_round. destruct (Prim2SF x); try discriminate; reflexivity.
Qed.

Lemma round2_not_finite (x : float) :
  not_finite (Prim2SF x) = true -> not_finite (Prim2SF (round2 x)) = true.
Proof.
  intros H. unfold round2.
  rewrite Math_round_not_finite by now apply mul_100_not_finite.
  now apply div_100_not_finite, mul_100_not_finite.
Qed.

Lemma zero_amount_percentage (spent : float) (budget : Budget.t) :
  (Budget.amount budget =? 0)%float = true ->
  PrimFloat.is_finite (round2 (percentage spent budget)) = false.
Proof.
  intros H. apply not_finite_is_finite, round2_not_finite.
  unfold percentage. now apply mul_100_not_finite, div_zero_not_finite.
Qed.

(** ** The loops of [getBudgetAnalysis] and [getBudgetAlerts] *)

Lemma analysis_step_eq (db : Database) (userId : Z) (a : BudgetAnalysis.t)
    (b : Budget.t) :
  analysis_step db userId a b =
  let p := performance_of db userId b in
  BudgetAnalysis.mk
    (BudgetAnalysis.totalBudgets a) (BudgetAnalysis.activeBudgets a)
    (BudgetAnalysis.totalBudgetAmount a)
    (BudgetAnalysis.totalSpent a + BudgetPerformance.spent p)%float
    (BudgetAnalysis.overBudgetCount a + List.length (filter is_over [p]))
    (BudgetAnalysis.savings a)
    (BudgetAnalysis.budgetPerformance a ++ [p]).
Proof.
  unfold analysis_step, performance_of, is_over; cbn.
  destruct (100 <=? _)%float; cbn; [f_equal; lia |].
  destruct (_ <=? _)%float; cbn; f_equal; lia.
Qed.

Lemma analysis_loop (db : Database) (userId : Z) (l : list Budget.t) :
  forall a,
  fold_left (analysis_step db userId) l a =
  let ps := map (performance_of db userId) l in
  BudgetAnalysis.mk
    (BudgetAnalysis.totalBudgets a) (BudgetAnalysis.activeBudgets a)
    (BudgetAnalysis.totalBudgetAmount a)
    (fold_left (fun s p => (s + BudgetPerformance.spent p)%float) ps
       (BudgetAnalysis.totalSpent a))
    (BudgetAnalysis.overBudgetCount a + List.length (filter is_over ps))
    (BudgetAnalysis.savings a)
    (BudgetAnalysis.budgetPerformance a ++ ps).
Proof.
  induction l as [| b l IH]; intros a; cbn [fold_left map].
  - destruct a; cbn. now rewrite Nat.add_0_r, app_nil_r.
  - rewrite IH, analysis_step_eq. cbv zeta.
    cbn [BudgetAnalysis.totalBudgets BudgetAnalysis.activeBudgets
         BudgetAnalysis.totalBudgetAmount BudgetAnalysis.totalSpent
         BudgetAnalysis.overBudgetCount BudgetAnalysis.savings
         BudgetAnalysis.budgetPerformance fold_left].
    rewrite <- app_assoc. f_equal.
    change (performance_of db userId b :: map (performance_of db userId) l)
      with ([performance_of db userId b] ++ map (performance_of db userId) l).
    rewrite filter_app, length_app. lia.
Qed.

Lemma getBudgetAnalysis_eq (db : Database) (userId : Z) :
  getBudgetAnalysis db userId =
  let ps := map (performance_of db userId) (active db userId) in
  let totalBudgetAmount :=
    fold_left (fun sum b => (sum + Budget.amount b)%float) (active db userId) 0%float in
  let totalSpent :=
    fold_left (fun s p => (s + BudgetPerformance.spent p)%float) ps 0%float in
  Resolved
    (BudgetAnalysis.mk
       (List.length (getUserBudgets db userId))
       (List.length (active db userId))
       totalBudgetAmount totalSpent
       (List.length (filter is_over ps))
       (totalBudgetAmount - totalSpent)%float
       ps).
Proof.
  unfold getBudgetAnalysis. fold (active db userId).
  rewrite analysis_loop. reflexivity.
Qed.

Lemma performance_of_fields (db : Database) (userId : Z) (b : Budget.t) :
  let p := performance_of db userId b in
  let spent := calculateBudgetSpent db userId b in
  BudgetPerformance.budgetId p = Budget.id b
  /\ BudgetPerformance.name p = Budget.name b
  /\ BudgetPerformance.budgetAmount p = Budget.amount b
  /\ BudgetPerformance.spent p = spent
  /\ BudgetPerformance.remaining p = (Budget.amount b - spent)%float
  /\ BudgetPerformance.percentageUsed p = round2 (percentage spent b)
  /\ BudgetPerformance.status p =
       if (100 <=? percentage spent b)%float then Status.over
       else if (Budget.alertThreshold b <=? percentage spent b)%float
            then Status.warning
            else Status.under.
Proof. repeat split. Qed.

Lemma Forall2_map_r {A B : Type} (R : A -> B -> Prop) (f : A -> B) (l : list A) :
  (forall x, In x l -> R x (f x)) -> Forall2 R l (map f l).
Proof.
  induction l as [| x l IH]; intros H; cbn; constructor.
  - apply H; now left.
  - apply IH; intros y Hy; apply H; now right.
Qed.

(** ** Permutations: what [ORDER BY] and [WHERE] keep *)

Lemma insert_desc_perm (b : Budget.t) (l : list Budget.t) :
  Permutation (insert_desc b l) (b :: l).
Proof.
  induction l as [| x l IH]; cbn; [reflexivity |].
  destruct (String.leb _ _); [reflexivity |].
  rewrite IH. apply perm_swap.
Qed.

Lemma order_by_createdAt_desc_perm (l : list Budget.t) :
  Permutation (order_by_createdAt_desc l) l.
Proof.
  induction l as [| x l IH]; cbn; [reflexivity |].
  rewrite insert_desc_perm. now constructor.
Qed.

Lemma filter_perm {A : Type} (f : A -> bool) (l l' : list A) :
  Permutation l l' -> Permutation (filter f l) (filter f l').
Proof.
  induction 1 as [| x l l' _ IH | x y l | l l' l'' _ IH1 _ IH2]; cbn.
  - reflexivity.
  - destruct (f x); [now constructor | assumption].
  - destruct (f x), (f y); try reflexivity. apply perm_swap.
  - now transitivity (filter f l').
Qed.

Lemma active_perm (db : Database) (userId : Z) :
  Permutation (active db userId)
    (filter (fun b => truthy_int (Budget.isActive b))
       (filter (fun b => Budget.userId b =? userId) (budgets db))).
Proof.
  unfold active, getUserBudgets.
  apply filter_perm, order_by_createdAt_desc_perm.
Qed.

(** The classification of [analysis_step], read off the two comparisons. *)
Lemma classify_cases (raw t : float) :
  let status :=
    if (100 <=? raw)%float then Status.over
    else if (t <=? raw)%float then Status.warning else Status.under in
  (t <=? 100)%float = true ->
  (status = Status.over <-> (100 <=? raw)%float = true)
  /\ (status = Status.warning <->
      (t <=? raw)%float = true /\ (raw <? 100)%float = true)
  /\ (status = Status.under <-> (t <=? raw)%float = false)
  /\ ((raw <? t)%float = true -> status = Status.under).
Proof.
  intros status Ht. subst status.
  assert (Hover : (100 <=? raw)%float = true -> (t <=? raw)%float = true)
    by (intros H; now apply leb_trans with (y := 100%float)).
  destruct (100 <=? raw)%float eqn:E100.
  - rewrite (Hover eq_refl).
    repeat split; try discriminate; try (intros; discriminate).
    + intros [_ H]. apply ltb_leb_asym in H. congruence.
    + intros H. apply ltb_leb_asym in H. rewrite Hover in H; congruence.
  - destruct (t <=? raw)%float eqn:Et.
    + repeat split; try discriminate; try (intros; discriminate).
      * now apply leb_false_ltb with (z := t).
      * intros H. apply ltb_leb_asym in H. congruence.
    + repeat split; try discriminate; try (intros; discriminate).
      intros [H _]; discriminate.
Qed.

(** ** Budget evaluation: [getBudgetAnalysis] *)

Lemma round_half_up_nearest (s : bool) (m : positive) (e : Z) :
  e < 0 ->
  nearest_half_up s m e (Js.round_half_up (if s then Z.neg m else Z.pos m) e).
Proof.
  intros He. unfold nearest_half_up, Js.round_half_up.
  set (v := if s then Z.neg m else Z.pos m).
  rewrite Z.shiftr_div_pow2, Z.shiftl_mul_pow2 by lia.
  replace (1 - e) with (Z.succ (- e)) by lia.
  rewrite Z.pow_succ_r by lia.
  set (P := 2 ^ (- e)).
  assert (HP : 0 < P) by (apply Z.pow_pos_nonneg; lia).
  pose proof (Z.div_mod (2 * v + 1 * P) (2 * P) ltac:(lia)) as Hdm.
  pose proof (Z.mod_pos_bound (2 * v + 1 * P) (2 * P) ltac:(lia)) as Hmod.
  set (n := (2 * v + 1 * P) / (2 * P)) in *.
  split; nia.
Qed.

Lemma Math_round_rounded (y : float) : rounded_to_integer y (Js.Math_round y).
Proof.
  unfold rounded_to_integer, Js.Math_round.
  destruct (Prim2SF y) as [sy | sy | | s m e]; try reflexivity.
  destruct (0 <=? e) eqn:E; [reflexivity |].
  apply Z.leb_gt in E.
  exists (Js.round_half_up (if s then Z.neg m else Z.pos m) e).
  split; [now apply round_half_up_nearest | reflexivity].
Qed.

(** C6, amended.  Every active budget gets a performance record whose
    [remaining] is [budgetAmount - spent], whatever its sign, and whose
    [percentageUsed] is [q / 100], where [q] is the binary64 product
    [spent / budgetAmount * 100 * 100] rounded to an integer: the nearest
    integer, the larger of two, for a finite product, and the product
    itself when it is not finite. *)
Theorem performance_remaining_and_rounded_percentage (db : Database) (userId : Z) :
  exists a,
    getBudgetAnalysis db userId = Resolved a
    /\ Forall2
         (fun b p =>
            BudgetPerformance.budgetId p = Budget.id b
            /\ BudgetPerformance.budgetAmount p = Budget.amount b
            /\ BudgetPerformance.spent p = calculateBudgetSpent db userId b
            /\ BudgetPerformance.remaining p =
                 (BudgetPerformance.budgetAmount p - BudgetPerformance.spent p)%float
            /\ exists q,
                 rounded_to_integer
                   (BudgetPerformance.spent p / BudgetPerformance.budgetAmount p
                    * 100 * 100)%float q
                 /\ BudgetPerformance.percentageUsed p = (q / 100)%float)
         (active db userId) (BudgetAnalysis.budgetPerformance a).
Proof.
  rewrite getBudgetAnalysis_eq. eexists; split; [reflexivity |].
  cbn [BudgetAnalysis.budgetPerformance].
  apply Forall2_map_r. intros b _.
  destruct (performance_of_fields db userId b)
    as (Hid & _ & Hamount & Hspent & Hrem & Hpct & _).
  rewrite Hid, Hamount, Hspent, Hrem, Hpct. do 4 (split; [reflexivity |]).
  exists (Js.Math_round
            (calculateBudgetSpent db userId b / Budget.amount b * 100 * 100)%float).
  split; [apply Math_round_rounded | reflexivity].
Qed.

(** C7.  The analysis holds one performance record per active budget of
    the user, in the order of the budgets and with none for an inactive
    one; [totalBudgetAmount] adds the active budgets' amounts,
    [totalSpent] adds the records' [spent], [overBudgetCount] counts the
    records whose status is [over], and [savings] is
    [totalBudgetAmount - totalSpent], of either sign. *)
Theorem analysis_portfolio_totals (db : Database) (userId : Z) :
  exists a,
    getBudgetAnalysis db userId = Resolved a
    /\ map BudgetPerformance.budgetId (BudgetAnalysis.budgetPerformance a)
       = map Budget.id (active db userId)
    /\ Permutation (active db userId)
         (filter (fun b => truthy_int (Budget.isActive b))
            (filter (fun b => Budget.userId b =? userId) (budgets db)))
    /\ BudgetAnalysis.totalBudgetAmount a
       = fold_left (fun sum b => (sum + Budget.amount b)%float)
           (active db userId) 0%float
    /\ BudgetAnalysis.totalSpent a
       = fold_left (fun sum p => (sum + BudgetPerformance.spent p)%float)
           (BudgetAnalysis.budgetPerformance a) 0%float
    /\ BudgetAnalysis.overBudgetCount a
       = List.length
           (filter (fun p => Status.eqb (BudgetPerformance.status p) Status.over)
              (BudgetAnalysis.budgetPerformance a))
    /\ BudgetAnalysis.savings a
       = (BudgetAnalysis.totalBudgetAmount a - BudgetAnalysis.totalSpent a)%float.
Proof.
  rewrite getBudgetAnalysis_eq. eexists; split; [reflexivity |].
  cbn [BudgetAnalysis.budgetPerformance BudgetAnalysis.totalBudgetAmount
       BudgetAnalysis.totalSpent BudgetAnalysis.overBudgetCount
       BudgetAnalysis.savings].
  repeat split.
  - rewrite map_map. apply map_ext. intros b.
    apply (performance_of_fields db userId b).
  - apply active_perm.
Qed.

(** C4, amended.  For an active budget with [alertThreshold] in [1,100] the
    status is decided by the ratio [spent / budgetAmount * 100] before it
    is rounded: [over] exactly when the ratio is at least [100], [warning]
    exactly when it is at least [alertThreshold] and below [100], [under]
    otherwise, in particular when it is below [alertThreshold].  The
    record's [percentageUsed] is that ratio rounded to two decimals. *)
Theorem status_by_unrounded_percentage (db : Database) (userId : Z) :
  exists a,
    getBudgetAnalysis db userId = Resolved a
    /\ Forall2
         (fun b p =>
            let raw := percentage (BudgetPerformance.spent p) b in
            let t := Budget.alertThreshold b in
            BudgetPerformance.budgetId p = Budget.id b
            /\ BudgetPerformance.spent p = calculateBudgetSpent db userId b
            /\ BudgetPerformance.percentageUsed p = round2 raw
            /\ ((1 <=? t)%float = true -> (t <=? 100)%float = true ->
                (BudgetPerformance.status p = Status.over
                 <-> (100 <=? raw)%float = true)
                /\ (BudgetPerformance.status p = Status.warning
                    <-> (t <=? raw)%float = true /\ (raw <? 100)%float = true)
                /\ (BudgetPerformance.status p = Status.under
                    <-> (t <=? raw)%float = false)
                /\ ((raw <? t)%float = true
                    -> BudgetPerformance.status p = Status.under)))
         (active db userId) (BudgetAnalysis.budgetPerformance a).
Proof.
  rewrite getBudgetAnalysis_eq. eexists; split; [reflexivity |].
  cbn [BudgetAnalysis.budgetPerformance].
  apply Forall2_map_r. intros b _.
  destruct (performance_of_fields db userId b)
    as (Hid & _ & _ & Hspent & _ & Hpct & Hstatus).
  cbv zeta. rewrite Hid, Hspent, Hpct, Hstatus.
  do 3 (split; [reflexivity |]). intros _ Ht.
  now apply classify_cases.
Qed.

(** ** Alert generation: [getBudgetAlerts] *)

Lemma alerts_step_app (db : Database) (userId : Z) (alerts : list BudgetAlert.t)
    (b : Budget.t) :
  alerts_step db userId alerts b = alerts ++ alerts_step db userId [] b.
Proof.
  unfold alerts_step.
  destruct (_ <=? _)%float; [| now rewrite app_nil_r].
  destruct (100 <=? _)%float; [reflexivity |].
  destruct (90 <=? _)%float; reflexivity.
Qed.

Lemma alerts_loop (db : Database) (userId : Z) (l : list Budget.t) :
  forall alerts,
  fold_left (alerts_step db userId) l alerts
  = alerts ++ flat_map (alerts_step db userId []) l.
Proof.
  induction l as [| b l IH]; intros alerts; cbn [fold_left flat_map].
  - now rewrite app_nil_r.
  - now rewrite IH, alerts_step_app, app_assoc.
Qed.

Lemma getBudgetAlerts_eq (db : Database) (userId : Z) :
  getBudgetAlerts db userId
  = Resolved (flat_map (alerts_step db userId []) (active db userId)).
Proof.
  unfold getBudgetAlerts. fold (active db userId).
  now rewrite alerts_loop.
Qed.

Lemma leb_90_100 : (90 <=? 100)%float = true.
Proof. reflexivity. Qed.

(** C5, amended.  [getBudgetAlerts] returns, budget by budget, the alerts
    of the user's active budgets.  A budget gets an alert exactly when the
    ratio [spent / budgetAmount * 100], before it is rounded, is at least
    its [alertThreshold].  The alert is [exceeded] when the ratio is at
    least [100], with a message that reports [spent - budgetAmount];
    [danger] when it is at least [90] and below [100], whatever the
    threshold; [warning] when it is below [90].  The alert's
    [percentageUsed] is the ratio rounded to two decimals. *)
Theorem alerts_by_unrounded_percentage (db : Database) (userId : Z) :
  getBudgetAlerts db userId
  = Resolved (flat_map (alerts_step db userId []) (active db userId))
  /\ forall b,
       let spent := calculateBudgetSpent db userId b in
       let raw := percentage spent b in
       ((Budget.alertThreshold b <=? raw)%float = false
        -> alerts_step db userId [] b = [])
       /\ ((Budget.alertThreshold b <=? raw)%float = true
           -> exists al,
                alerts_step db userId [] b = [al]
                /\ BudgetAlert.budgetId al = Budget.id b
                /\ BudgetAlert.budgetName al = Budget.name b
                /\ BudgetAlert.currentSpent al = spent
                /\ BudgetAlert.budgetAmount al = Budget.amount b
                /\ BudgetAlert.percentageUsed al = round2 raw
                /\ ((100 <=? raw)%float = true
                    -> BudgetAlert.alertLevel al = AlertLevel.exceeded
                       /\ BudgetAlert.message al = message_exceeded spent b)
                /\ ((90 <=? raw)%float = true -> (raw <? 100)%float = true
                    -> BudgetAlert.alertLevel al = AlertLevel.danger
                       /\ BudgetAlert.message al
                          = message_close raw (Budget.name b))
                /\ ((raw <? 90)%float = true
                    -> BudgetAlert.alertLevel al = AlertLevel.warning
                       /\ BudgetAlert.message al
                          = message_used raw (Budget.name b))).
Proof.
  split; [apply getBudgetAlerts_eq |].
  intros b spent raw. unfold alerts_step. fold spent. fold raw.
  split; intros Ht; rewrite Ht; [reflexivity |].
  assert (Hlt100 : (raw <? 100)%float = true -> (100 <=? raw)%float = false)
    by apply ltb_leb_asym.
  assert (Hlt90 : (raw <? 90)%float = true -> (90 <=? raw)%float = false)
    by apply ltb_leb_asym.
  assert (Hlt90' : (raw <? 90)%float = true -> (100 <=? raw)%float = false).
  { intros H. apply ltb_leb_asym.
    now apply ltb_leb_trans with (y := 90%float); [| apply leb_90_100]. }
  destruct (100 <=? raw)%float eqn:E100;
    [| destruct (90 <=? raw)%float eqn:E90];
    (eexists; split; [reflexivity |]); cbn;
    do 5 (split; [reflexivity |]);
    (split; [| split]); intros; try (split; reflexivity);
    try discriminate;
    repeat match goal with
           | H : ?P -> _, H' : ?P |- _ => specialize (H H')
           end; discriminate.
Qed.

Lemma alerts_step_In (db : Database) (userId : Z) (b : Budget.t)
    (al : BudgetAlert.t) :
  In al (alerts_step db userId [] b) ->
  BudgetAlert.budgetId al = Budget.id b
  /\ BudgetAlert.budgetAmount al = Budget.amount b
  /\ BudgetAlert.percentageUsed al
     = round2 (percentage (calculateBudgetSpent db userId b) b).
Proof.
  unfold alerts_step.
  destruct (_ <=? _)%float; [| intros []].
  destruct (100 <=? _)%float; [| destruct (90 <=? _)%float];
    (intros [<- | []]; repeat split).
Qed.

(** C3, amended.  A stored budget whose [amount] is zero is evaluated like
    any other: both methods resolve, no error is signalled, and the
    division yields an infinity or [NaN], which the rounding keeps.  So
    the performance record of such a budget, and any alert emitted for it,
    carries a [percentageUsed] that is not finite. *)
Theorem zero_amount_is_not_guarded (db : Database) (userId : Z) :
  (exists a,
     getBudgetAnalysis db userId = Resolved a
     /\ Forall2
          (fun b p =>
             BudgetPerformance.budgetId p = Budget.id b
             /\ ((Budget.amount b =? 0)%float = true
                 -> PrimFloat.is_finite (BudgetPerformance.percentageUsed p)
                    = false))
          (active db userId) (BudgetAnalysis.budgetPerformance a))
  /\ (exists alerts,
        getBudgetAlerts db userId = Resolved alerts
        /\ forall al, In al alerts ->
             (BudgetAlert.budgetAmount al =? 0)%float = true ->
             PrimFloat.is_finite (BudgetAlert.percentageUsed al) = false).
Proof.
  split.
  - rewrite getBudgetAnalysis_eq. eexists; split; [reflexivity |].
    cbn [BudgetAnalysis.budgetPerformance].
    apply Forall2_map_r. intros b _.
    destruct (performance_of_fields db userId b)
      as (Hid & _ & _ & _ & _ & Hpct & _).
    rewrite Hid, Hpct. split; [reflexivity |].
    apply zero_amount_percentage.
  - rewrite getBudgetAlerts_eq. eexists; split; [reflexivity |].
    intros al Hin Hzero.
    apply in_flat_map in Hin. destruct Hin as (b & _ & Hin).
    apply alerts_step_In in Hin. destruct Hin as (_ & Hamount & Hpct).
    rewrite Hpct. apply zero_amount_percentage. now rewrite <- Hamount.
Qed.

(** ** The budget store: update *)

Lemma frame_refl (updates : list BudgetField) (b : Budget.t) : frame updates b b.
Proof. unfold frame; repeat split; reflexivity. Qed.

Lemma set_column_frame (f : BudgetField) (b : Budget.t) :
  allowed f = true -> frame [f] b (set_column f b).
Proof.
  destruct b, f; cbn; intros Hf; try discriminate;
    unfold frame; cbn; repeat split; intros; try reflexivity; discriminate.
Qed.

Lemma frame_cons (f : BudgetField) (updates : list BudgetField)
    (b b1 b' : Budget.t) :
  frame [f] b b1 -> frame updates b1 b' -> frame (f :: updates) b b'.
Proof.
  unfold frame, supplied; cbn [existsb].
  intros (I1 & U1 & C1 & N1 & A1 & G1 & P1 & S1 & E1 & T1 & V1)
         (I2 & U2 & C2 & N2 & A2 & G2 & P2 & S2 & E2 & T2 & V2).
  rewrite I2, U2, C2. do 3 (split; [assumption |]).
  repeat split; intros H; apply orb_false_elim in H; destruct H as [Hf Hu];
    first [ rewrite (N2 Hu); apply N1 | rewrite (A2 Hu); apply A1
          | rewrite (G2 Hu); apply G1 | rewrite (P2 Hu); apply P1
          | rewrite (S2 Hu); apply S1 | rewrite (E2 Hu); apply E1
          | rewrite (T2 Hu); apply T1 | rewrite (V2 Hu); apply V1 ];
    now rewrite Hf.
Qed.

Lemma frame_skip (f : BudgetField) (updates : list BudgetField) (b b' : Budget.t) :
  frame updates b b' -> frame (f :: updates) b b'.
Proof.
  unfold frame, supplied; cbn [existsb].
  intros (I & U & C & N & A & G & P & S & E & T & V).
  do 3 (split; [assumption |]).
  repeat split; intros H; apply orb_false_elim in H; destruct H as [_ Hu];
    first [ apply (N Hu) | apply (A Hu) | apply (G Hu) | apply (P Hu)
          | apply (S Hu) | apply (E Hu) | apply (T Hu) | apply (V Hu) ].
Qed.

Lemma fold_set_column_frame (updates : list BudgetField) :
  forall b,
  frame updates b (fold_left (fun r f => set_column f r) (filter allowed updates) b).
Proof.
  induction updates as [| f updates IH]; intros b; cbn [filter fold_left].
  - apply frame_refl.
  - destruct (allowed f) eqn:Hf; cbn [fold_left].
    + apply frame_cons with (b1 := set_column f b); [| apply IH].
      now apply set_column_frame.
    + apply frame_skip, IH.
Qed.

Lemma set_updatedAt_frame (updates : list BudgetField) (now : string)
    (b b' : Budget.t) :
  frame updates b b' -> frame updates b (set_updatedAt now b').
Proof. destruct b'; exact (fun H => H). Qed.

Lemma sql_update_frame (updates : list BudgetField) (now : string)
    (budgetId userId : Z) (rows : list Budget.t) :
  Forall2
    (fun b b' =>
       frame updates b b' /\ (matches budgetId userId b = false -> b' = b))
    rows (sql_update (filter allowed updates) now budgetId userId rows).
Proof.
  unfold sql_update. apply Forall2_map_r. intros b _.
  destruct (matches budgetId userId b).
  - split; [| discriminate].
    apply set_updatedAt_frame, fold_set_column_frame.
  - split; [apply frame_refl | reflexivity].
Qed.

(** C8.  Whatever the entries of [partialUpdate], [updateBudget] leaves the
    [id], [userId] and [createdAt] of every row as they were, leaves every
    updatable column without an entry as it was, and leaves a row that does
    not match [(budgetId, userId)] wholly unchanged: an [id] or [userId]
    entry is dropped by the list of allowed fields.  The expenses are not
    touched. *)
Theorem updateBudget_changes_only_supplied_fields (now : string)
    (budgetId userId : Z) (updates : list BudgetField) (db : Database) :
  let db' := fst (updateBudget now budgetId userId updates db) in
  expenses db' = expenses db
  /\ Forall2
       (fun b b' =>
          frame updates b b' /\ (matches budgetId userId b = false -> b' = b))
       (budgets db) (budgets db').
Proof.
  unfold updateBudget. fold allowed.
  destruct (List.length (filter allowed updates) =? 0)%nat; cbn.
  - split; [reflexivity |].
    rewrite <- (map_id (budgets db)) at 2.
    apply Forall2_map_r. intros b _. split; [apply frame_refl | reflexivity].
  - split; [reflexivity | apply sql_update_frame].
Qed.

Lemma filter_length_0 {A : Type} (f : A -> bool) (l : list A) :
  (List.length (filter f l) =? 0)%nat = negb (existsb f l).
Proof.
  induction l as [| x l IH]; cbn; [reflexivity |].
  destruct (f x); cbn; [reflexivity | exact IH].
Qed.

Lemma sql_update_no_match (setClause : list BudgetField) (now : string)
    (budgetId userId : Z) (rows : list Budget.t) :
  existsb (matches budgetId userId) rows = false ->
  sql_update setClause now budgetId userId rows = rows.
Proof.
  unfold sql_update. induction rows as [| b rows IH]; cbn; [reflexivity |].
  intros H. apply orb_false_elim in H. destruct H as [Hb Hrows].
  now rewrite Hb, IH.
Qed.

Lemma find_none_existsb {A : Type} (f : A -> bool) (l : list A) :
  existsb f l = false -> find f l = None.
Proof.
  induction l as [| x l IH]; cbn; [reflexivity |].
  destruct (f x); [discriminate | exact IH].
Qed.

(** C1, amended.  When no row matches [(budgetId, userId)], [updateBudget]
    changes nothing in the store and signals no not-found error: it rejects
    only for a [partialUpdate] without any updatable field, with the error
    [No valid fields to update], and otherwise resolves; it resolves with
    no budget when no row at all has the id [budgetId]. *)
Theorem updateBudget_without_match (now : string) (budgetId userId : Z)
    (updates : list BudgetField) (db : Database) :
  existsb (matches budgetId userId) (budgets db) = false ->
  fst (updateBudget now budgetId userId updates db) = db
  /\ (existsb allowed updates = false
      -> snd (updateBudget now budgetId userId updates db)
         = Rejected "No valid fields to update")
  /\ (existsb allowed updates = true
      -> exists row,
           snd (updateBudget now budgetId userId updates db) = Resolved row
           /\ (existsb (fun b => Budget.id b =? budgetId) (budgets db) = false
               -> row = None)).
Proof.
  intros Hno. unfold updateBudget. fold allowed.
  rewrite filter_length_0, (sql_update_no_match _ _ _ _ _ Hno).
  destruct (existsb allowed updates); cbn.
  - destruct db; cbn. split; [reflexivity |]. split; [discriminate |].
    intros _. eexists; split; [reflexivity |].
    unfold getBudgetById; cbn. apply find_none_existsb.
  - repeat split. discriminate.
Qed.

(** ** The budget store: delete *)

Lemma sql_delete_no_match (budgetId userId : Z) (rows : list Budget.t) :
  existsb (matches budgetId userId) rows = false ->
  sql_delete budgetId userId rows = rows.
Proof.
  unfold sql_delete. induction rows as [| b rows IH]; cbn; [reflexivity |].
  intros H. apply orb_false_elim in H. destruct H as [Hb Hrows].
  now rewrite Hb, IH.
Qed.

Lemma sql_delete_idempotent (budgetId userId : Z) (rows : list Budget.t) :
  sql_delete budgetId userId (sql_delete budgetId userId rows)
  = sql_delete budgetId userId rows.
Proof.
  unfold sql_delete. induction rows as [| b rows IH]; cbn; [reflexivity |].
  destruct (matches budgetId userId b) eqn:Hb; cbn; [exact IH |].
  now rewrite Hb, IH.
Qed.

Lemma unique_id_no_other_match (budgetId userId : Z) (b : Budget.t)
    (rows : list Budget.t) :
  matches budgetId userId b = true ->
  ~ In (Budget.id b) (map Budget.id rows) ->
  existsb (matches budgetId userId) rows = false.
Proof.
  unfold matches. intros Hb Hnot.
  apply andb_prop in Hb. destruct Hb as [Hid _]. apply Z.eqb_eq in Hid.
  induction rows as [| x rows IH]; cbn; [reflexivity |].
  cbn in Hnot. rewrite IH by tauto.
  destruct (Budget.id x =? budgetId) eqn:E; [| reflexivity].
  apply Z.eqb_eq in E. exfalso. apply Hnot. left. congruence.
Qed.

Lemma sql_delete_split (budgetId userId : Z) (rows : list Budget.t) :
  NoDup (map Budget.id rows) ->
  exists before removed after,
    rows = before ++ removed ++ after
    /\ sql_delete budgetId userId rows = before ++ after
    /\ (removed = []
        \/ exists b, removed = [b] /\ matches budgetId userId b = true).
Proof.
  induction rows as [| x rows IH]; intros Hnd.
  - exists [], [], []. repeat split. now left.
  - cbn in Hnd. inversion Hnd as [| ? ? Hnot Hnd']; subst.
    destruct (matches budgetId userId x) eqn:Hx.
    + exists [], [x], rows. split; [reflexivity |]. split.
      * unfold sql_delete; cbn. rewrite Hx; cbn.
        apply sql_delete_no_match.
        now apply unique_id_no_other_match with (b := x).
      * right. now exists x.
    + destruct (IH Hnd') as (before & removed & after & Hrows & Hdel & Hrem).
      exists (x :: before), removed, after. split; [| split].
      * cbn. now rewrite <- Hrows.
      * unfold sql_delete in *; cbn. rewrite Hx; cbn. now rewrite Hdel.
      * exact Hrem.
Qed.

(** C9.  [deleteBudget] always resolves.  With primary-key ids it removes
    at most one row, which then matches [(budgetId, userId)], and keeps
    every other row in place and unchanged; without a match the store is
    unchanged; deleting a second time changes nothing more.  The expenses
    are not touched. *)
Theorem deleteBudget_scoped_and_idempotent (budgetId userId : Z) (db : Database) :
  NoDup (map Budget.id (budgets db)) ->
  let db' := fst (deleteBudget budgetId userId db) in
  snd (deleteBudget budgetId userId db) = Resolved tt
  /\ expenses db' = expenses db
  /\ (exists before removed after,
        budgets db = before ++ removed ++ after
        /\ budgets db' = before ++ after
        /\ (removed = []
            \/ exists b, removed = [b]
                         /\ Budget.id b = budgetId /\ Budget.userId b = userId))
  /\ (existsb (matches budgetId userId) (budgets db) = false -> db' = db)
  /\ deleteBudget budgetId userId db' = (db', Resolved tt).
Proof.
  intros Hnd db'. subst db'. unfold deleteBudget.
  cbn [fst snd budgets expenses budgets_seq].
  split; [reflexivity |]. split; [reflexivity |]. split; [| split].
  - destruct (sql_delete_split budgetId userId _ Hnd)
      as (before & removed & after & Hrows & Hdel & Hrem).
    exists before, removed, after. repeat split; trivial.
    destruct Hrem as [-> | (b & -> & Hb)]; [now left | right].
    exists b. unfold matches in Hb. apply andb_prop in Hb.
    destruct Hb as [H1 H2]. apply Z.eqb_eq in H1, H2. auto.
  - intros Hno. rewrite sql_delete_no_match by assumption. now destruct db.
  - now rewrite sql_delete_idempotent.
Qed.

(** ** The budget store: create *)

Lemma max_id_bound (rows : list Budget.t) (b : Budget.t) :
  In b rows -> Budget.id b <= max_id rows.
Proof.
  induction rows as [| x rows IH]; [intros [] |].
  unfold max_id; cbn [fold_right]; fold (max_id rows).
  intros [-> | H]; [lia |]. specialize (IH H). lia.
Qed.

Lemma next_id_fresh (db : Database) :
  ~ In (next_id db) (map Budget.id (budgets db)).
Proof.
  intros H. apply in_map_iff in H. destruct H as (b & Hid & Hb).
  apply max_id_bound in Hb. unfold next_id in Hid. lia.
Qed.

Lemma find_new_row (rows : list Budget.t) (row : Budget.t) :
  ~ In (Budget.id row) (map Budget.id rows) ->
  find (fun b => Budget.id b =? Budget.id row) (rows ++ [row]) = Some row.
Proof.
  induction rows as [| x rows IH]; cbn; intros H.
  - now rewrite Z.eqb_refl.
  - destruct (Budget.id x =? Budget.id row) eqn:E.
    + apply Z.eqb_eq in E. tauto.
    + apply IH. tauto.
Qed.

(** [createBudget] checks nothing: whatever the data, one row carrying it
    is appended under a fresh id and returned. *)
Lemma createBudget_persists (now : string) (userId : Z)
    (budgetData : BudgetData.t) (db : Database) :
  let row :=
    Budget.mk (next_id db) userId
      (BudgetData.name budgetData) (BudgetData.amount budgetData)
      (truthy_string (BudgetData.category budgetData))
      (BudgetData.period budgetData) (BudgetData.startDate budgetData)
      (BudgetData.endDate budgetData) (BudgetData.alertThreshold budgetData)
      (if BudgetData.isActive budgetData then 1 else 0) now now in
  createBudget now userId budgetData db
  = (mkDatabase (budgets db ++ [row]) (next_id db) (expenses db),
     Resolved (Some row)).
Proof.
  intros row.
  assert (H : getBudgetById
                (mkDatabase (budgets db ++ [row]) (next_id db) (expenses db))
                (next_id db) = Some row)
    by exact (find_new_row (budgets db) row (next_id_fresh db)).
  unfold createBudget. cbv zeta. fold row. now rewrite H.
Qed.

Lemma spent_rows_without_category (ledger : Database) (user : Z) (row : Budget.t)
    (e : Expense.t) :
  Budget.category row = None ->
  In e (spent_rows ledger user row)
  <-> In e (expenses ledger)
      /\ Expense.userId e = user
      /\ date_between (Expense.purchase_date e)
           (Budget.startDate row) (Budget.endDate row) = true.
Proof.
  intros Hcat. unfold spent_rows. rewrite Hcat. cbn [truthy_string].
  rewrite filter_In, andb_true_r, andb_true_iff, Z.eqb_eq. tauto.
Qed.

(** ** Primary key: the ids of table [budgets] stay distinct *)





(** ** Reading the store: [getUserBudgets] *)

Lemma insert_desc_sorted (b : Budget.t) (l : list Budget.t) :
  Sorted not_older l -> Sorted not_older (insert_desc b l).
Proof.
  induction l as [| x l IH]; intros Hs; cbn.
  - repeat constructor.
  - destruct (String.leb (Budget.createdAt x) (Budget.createdAt b)) eqn:E.
    + constructor; [assumption |]. constructor. exact E.
    + apply Sorted_inv in Hs. destruct Hs as [Hs Hhd].
      constructor; [now apply IH |].
      assert (Hxb : not_older x b).
      { unfold not_older. destruct (String.leb_total (Budget.createdAt x)
                                      (Budget.createdAt b)); congruence. }
      destruct l as [| y l]; cbn.
      * now constructor.
      * destruct (String.leb (Budget.createdAt y) (Budget.createdAt b));
          constructor; trivial.
        now inversion Hhd.
Qed.

Lemma order_by_createdAt_desc_sorted (l : list Budget.t) :
  Sorted not_older (order_by_createdAt_desc l).
Proof.
  induction l as [| x l IH]; cbn; [constructor |].
  now apply insert_desc_sorted.
Qed.

(** X1.  [getUserBudgets] returns the rows of the user and no other, each
    once, the newest first: every row is at least as new as the next. *)
Theorem getUserBudgets_owner_scoped_newest_first (db : Database) (userId : Z) :
  Permutation (getUserBudgets db userId)
    (filter (fun b => Budget.userId b =? userId) (budgets db))
  /\ Forall (fun b => Budget.userId b = userId /\ In b (budgets db))
       (getUserBudgets db userId)
  /\ Sorted not_older (getUserBudgets db userId).
Proof.
  unfold getUserBudgets. split; [| split].
  - apply order_by_createdAt_desc_perm.
  - apply Forall_forall. intros b Hb.
    apply (Permutation_in _ (order_by_createdAt_desc_perm _)) in Hb.
    apply filter_In in Hb. destruct Hb as [Hin Hu].
    apply Z.eqb_eq in Hu. now split.
  - apply order_by_createdAt_desc_sorted.
Qed.

(** ** Create, then read *)



(** ** Update, then read *)

Lemma set_column_idem (f : BudgetField) (b : Budget.t) :
  set_column f (set_column f b) = set_column f b.
Proof. destruct f, b; reflexivity. Qed.

Lemma set_column_comm (f g : BudgetField) (b : Budget.t) :
  key f <> key g ->
  set_column f (set_column g b) = set_column g (set_column f b).
Proof.
  destruct b, f, g; intros H; try reflexivity; exfalso; apply H; reflexivity.
Qed.

Lemma set_column_through_fold (f : BudgetField) (l : list BudgetField) :
  ~ In (key f) (map key l) ->
  forall b,
  set_column f (fold_left (fun r g => set_column g r) l b)
  = fold_left (fun r g => set_column g r) l (set_column f b).
Proof.
  induction l as [| g l IH]; intros Hf b; cbn [fold_left]; [reflexivity |].
  cbn in Hf. rewrite IH by tauto.
  rewrite set_column_comm; [reflexivity |]. intros E. apply Hf. now left.
Qed.

Lemma fold_set_column_holds (l : list BudgetField) :
  NoDup (map key l) ->
  forall f b, In f l ->
  set_column f (fold_left (fun r g => set_column g r) l b)
  = fold_left (fun r g => set_column g r) l b.
Proof.
  induction l as [| g l IH]; intros Hnd f b Hin; [destruct Hin |].
  cbn in Hnd. apply NoDup_cons_iff in Hnd. destruct Hnd as [Hg Hnd].
  cbn [fold_left]. destruct Hin as [-> | Hin].
  - rewrite set_column_through_fold by assumption.
    now rewrite set_column_idem.
  - now apply IH.
Qed.

Lemma filter_keys_NoDup (p : BudgetField -> bool) (l : list BudgetField) :
  NoDup (map key l) -> NoDup (map key (filter p l)).
Proof.
  induction l as [| g l IH]; cbn; intros H; [constructor |].
  apply NoDup_cons_iff in H. destruct H as [Hg Hnd].
  destruct (p g); cbn; [| now apply IH].
  constructor; [| now apply IH].
  intros Hin. apply Hg.
  apply in_map_iff in Hin. destruct Hin as (x & Hk & Hx).
  apply filter_In in Hx. apply in_map_iff. exists x. tauto.
Qed.

Lemma set_updatedAt_comm (f : BudgetField) (now : string) (b : Budget.t) :
  allowed f = true ->
  set_column f (set_updatedAt now b) = set_updatedAt now (set_column f b).
Proof. destruct f, b; intros H; try discriminate; reflexivity. Qed.

Lemma set_updatedAt_value (now : string) (b : Budget.t) :
  Budget.updatedAt (set_updatedAt now b) = now.
Proof. now destruct b. Qed.

Lemma find_by_unique_id (g : Budget.t -> Budget.t) (budgetId : Z)
    (rows : list Budget.t) (b : Budget.t) :
  (forall x, Budget.id (g x) = Budget.id x) ->
  NoDup (map Budget.id rows) -> In b rows -> Budget.id b = budgetId ->
  find (fun x => Budget.id x =? budgetId) (map g rows) = Some (g b).
Proof.
  intros Hg. induction rows as [| x rows IH]; intros Hnd Hin Hid; [destruct Hin |].
  cbn in Hnd. apply NoDup_cons_iff in Hnd. destruct Hnd as [Hx Hnd].
  cbn [map find]. rewrite Hg. destruct Hin as [-> | Hin].
  - apply Z.eqb_eq in Hid. now rewrite Hid.
  - destruct (Budget.id x =? budgetId) eqn:E; [| now apply IH].
    apply Z.eqb_eq in E. exfalso. apply Hx.
    apply in_map_iff. exists b. split; [congruence | assumption].
Qed.

Lemma set_column_in_force (f : BudgetField) (b : Budget.t) :
  set_column f b = b -> in_force f b.
Proof.
  destruct b, f; cbn; intros H; injection H as H; congruence.
Qed.

(** X3.  When a row of the caller matches and the entries have distinct
    keys with an updatable one among them, [updateBudget] resolves with
    the updated row: it is in the store, its [updatedAt] is the clock, and
    the column of each updatable entry holds the value of the entry. *)
Theorem updateBudget_applies_entries (now : string) (budgetId userId : Z)
    (updates : list BudgetField) (db : Database) (b : Budget.t) :
  NoDup (map Budget.id (budgets db)) ->
  NoDup (map key updates) ->
  In b (budgets db) ->
  matches budgetId userId b = true ->
  existsb allowed updates = true ->
  exists b',
    snd (updateBudget now budgetId userId updates db) = Resolved (Some b')
    /\ In b' (budgets (fst (updateBudget now budgetId userId updates db)))
    /\ Budget.updatedAt b' = now
    /\ forall f, In f updates -> allowed f = true -> in_force f b'.
Proof.
  intros Hids Hkeys Hin Hb Hsome.
  unfold updateBudget. fold allowed.
  rewrite filter_length_0, Hsome. cbn [negb fst snd budgets].
  set (g := fun x : Budget.t =>
              if matches budgetId userId x
              then set_updatedAt now
                     (fold_left (fun r f => set_column f r) (filter allowed updates) x)
              else x).
  assert (Hg : forall x, Budget.id (g x) = Budget.id x).
  { intros x. unfold g. destruct (matches budgetId userId x); [| reflexivity].
    apply (set_updatedAt_frame updates now x), fold_set_column_frame. }
  exists (g b). split; [| split; [| split]].
  - f_equal. unfold getBudgetById, sql_update. cbn [budgets]. fold g.
    apply find_by_unique_id; trivial.
    unfold matches in Hb. apply andb_prop in Hb. now apply Z.eqb_eq.
  - unfold sql_update. fold g. now apply in_map.
  - unfold g. rewrite Hb. apply set_updatedAt_value.
  - intros f Hf Ha. apply set_column_in_force. unfold g. rewrite Hb.
    rewrite set_updatedAt_comm by assumption. f_equal.
    apply fold_set_column_holds.
    + now apply filter_keys_NoDup.
    + apply filter_In. now split.
Qed.

(** ** Alerts against statuses *)

Lemma alert_and_status_of_one_budget (db : Database) (userId : Z) (b : Budget.t) :
  (Budget.alertThreshold b <=? 100)%float = true ->
  map BudgetAlert.budgetId (alerts_step db userId [] b)
  = map BudgetPerformance.budgetId (filter not_under [performance_of db userId b])
  /\ map BudgetAlert.budgetId (filter is_exceeded (alerts_step db userId [] b))
     = map BudgetPerformance.budgetId (filter is_over [performance_of db userId b]).
Proof.
  intros Ht.
  unfold alerts_step, performance_of, analysis_step, not_under, is_over.
  cbn [BudgetAnalysis.budgetPerformance app filter BudgetPerformance.status].
  set (raw := percentage (calculateBudgetSpent db userId b) b).
  assert (Hover : (100 <=? raw)%float = true
                  -> (Budget.alertThreshold b <=? raw)%float = true)
    by (intros H; now apply leb_trans with (y := 100%float)).
  destruct (100 <=? raw)%float eqn:E100.
  - rewrite (Hover eq_refl). split; reflexivity.
  - destruct (Budget.alertThreshold b <=? raw)%float; [| split; reflexivity].
    destruct (90 <=? raw)%float; split; reflexivity.
Qed.

(** X4.  When every active budget of the user has a threshold of at most
    [100], the alerts are, in order, those of the budgets whose status in
    the analysis is not [under], and the [exceeded] alerts are those of
    the budgets whose status is [over]. *)
Theorem alerts_agree_with_statuses (db : Database) (userId : Z) :
  Forall (fun b => (Budget.alertThreshold b <=? 100)%float = true)
    (active db userId) ->
  exists a alerts,
    getBudgetAnalysis db userId = Resolved a
    /\ getBudgetAlerts db userId = Resolved alerts
    /\ map BudgetAlert.budgetId alerts
       = map BudgetPerformance.budgetId
           (filter not_under (BudgetAnalysis.budgetPerformance a))
    /\ map BudgetAlert.budgetId (filter is_exceeded alerts)
       = map BudgetPerformance.budgetId
           (filter is_over (BudgetAnalysis.budgetPerformance a)).
Proof.
  intros Hall. rewrite getBudgetAnalysis_eq, getBudgetAlerts_eq.
  eexists; eexists. split; [reflexivity |]. split; [reflexivity |].
  cbn [BudgetAnalysis.budgetPerformance].
  induction Hall as [| b l Hb _ [IH1 IH2]]; [split; reflexivity |].
  destruct (alert_and_status_of_one_budget db userId b Hb) as [H1 H2].
  cbn [flat_map map].
  change (performance_of db userId b :: map (performance_of db userId) l)
    with ([performance_of db userId b] ++ map (performance_of db userId) l).
  rewrite !filter_app, !map_app. split; congruence.
Qed.

(** ** Counts of the analysis *)

(** X5.  [totalBudgets] counts the user's rows and [activeBudgets] the
    active ones among them; there is one performance record per active
    budget, and [overBudgetCount <= activeBudgets <= totalBudgets]. *)
Theorem analysis_counts (db : Database) (userId : Z) :
  exists a,
    getBudgetAnalysis db userId = Resolved a
    /\ BudgetAnalysis.totalBudgets a
       = List.length (filter (fun b => Budget.userId b =? userId) (budgets db))
    /\ BudgetAnalysis.activeBudgets a
       = List.length
           (filter (fun b => truthy_int (Budget.isActive b))
              (filter (fun b => Budget.userId b =? userId) (budgets db)))
    /\ List.length (BudgetAnalysis.budgetPerformance a)
       = BudgetAnalysis.activeBudgets a
    /\ (BudgetAnalysis.overBudgetCount a <= BudgetAnalysis.activeBudgets a)%nat
    /\ (BudgetAnalysis.activeBudgets a <= BudgetAnalysis.totalBudgets a)%nat.
Proof.
  rewrite getBudgetAnalysis_eq. eexists; split; [reflexivity |].
  cbn [BudgetAnalysis.totalBudgets BudgetAnalysis.activeBudgets
       BudgetAnalysis.budgetPerformance BudgetAnalysis.overBudgetCount].
  split; [| split; [| split; [| split]]].
  - apply Permutation_length, order_by_createdAt_desc_perm.
  - apply Permutation_length, active_perm.
  - apply length_map.
  - rewrite <- (length_map (performance_of db userId) (active db userId)).
    apply filter_length_le.
  - apply filter_length_le.
Qed.

(** X6.  A user without any budget row gets the empty analysis, with every
    total zero, and no alert. *)
Theorem no_budget_empty_analysis (db : Database) (userId : Z) :
  (forall b, In b (budgets db) -> Budget.userId b <> userId) ->
  getBudgetAnalysis db userId
  = Resolved (BudgetAnalysis.mk 0 0 0%float 0%float 0 0%float [])
  /\ getBudgetAlerts db userId = Resolved [].
Proof.
  intros Hnone.
  assert (H : filter (fun b => Budget.userId b =? userId) (budgets db) = []).
  { induction (budgets db) as [| x rows IH]; cbn; [reflexivity |].
    destruct (Budget.userId x =? userId) eqn:E.
    - apply Z.eqb_eq in E. exfalso. apply (Hnone x); [now left | assumption].
    - apply IH. intros b Hb. apply Hnone. now right. }
  unfold getBudgetAnalysis, getBudgetAlerts, getUserBudgets.
  rewrite H. split; reflexivity.
Qed.

(** ** What the spend of a budget can be *)

(** X7.  [calculateBudgetSpent] always yields a number: never [NaN] and
    never the negative zero, and [0] when the user has no expense. *)
Theorem calculateBudgetSpent_is_a_number (db : Database) (userId : Z)
    (budget : Budget.t) :
  PrimFloat.is_nan (calculateBudgetSpent db userId budget) = false
  /\ Prim2SF (calculateBudgetSpent db userId budget) <> S754_zero true
  /\ ((forall e, In e (expenses db) -> Expense.userId e <> userId)
      -> calculateBudgetSpent db userId budget = 0%float).
Proof.
  unfold calculateBudgetSpent.
  set (where_ := fun e : Expense.t => _).
  set (total := coalesce _ _).
  split; [| split].
  - destruct (Js.truthy total) eqn:E; [| reflexivity].
    unfold Js.truthy in E. apply negb_true_iff, orb_false_elim in E. tauto.
  - destruct (Js.truthy total) eqn:E; [| discriminate].
    unfold Js.truthy in E. apply negb_true_iff, orb_false_elim in E.
    destruct E as [E _]. rewrite eqb_spec in E. intros Hz. now rewrite Hz in E.
  - intros Hnone.
    assert (H : filter where_ (expenses db) = []).
    { induction (expenses db) as [| e l IH]; cbn; [reflexivity |].
      destruct (where_ e) eqn:E.
      - unfold where_ in E. apply andb_prop in E. destruct E as [E _].
        apply andb_prop in E. destruct E as [E _]. apply Z.eqb_eq in E.
        exfalso. apply (Hnone e); [now left | assumption].
      - apply IH. intros x Hx. apply Hnone. now right. }
    subst total. rewrite H. reflexivity.
Qed.

Lemma string_leb_trans (s1 s2 s3 : string) :
  String.leb s1 s2 = true -> String.leb s2 s3 = true -> String.leb s1 s3 = true.
Proof.
  unfold String.leb. revert s2 s3.
  induction s1 as [| c1 s1 IH]; intros [| c2 s2] [| c3 s3]; cbn;
    try reflexivity; try discriminate.
  unfold Ascii.compare. specialize (IH s2 s3).
  destruct (N.compare_spec (Ascii.N_of_ascii c1) (Ascii.N_of_ascii c2)),
           (N.compare_spec (Ascii.N_of_ascii c2) (Ascii.N_of_ascii c3)),
           (N.compare_spec (Ascii.N_of_ascii c1) (Ascii.N_of_ascii c3));
    try reflexivity; try discriminate; try lia; try assumption;
    intros; discriminate.
Qed.

Lemma string_ltb_not_leb (s1 s2 : string) :
  String.ltb s1 s2 = true -> String.leb s2 s1 = false.
Proof.
  unfold String.ltb, String.leb. rewrite (String.compare_antisym s2 s1).
  destruct (String.compare s1 s2); try discriminate. reflexivity.
Qed.

(** X8.  A budget whose date range is unusable spends nothing, whatever
    the expenses: one of its two dates is not a date for the store, or its
    end date is before its start date. *)
Theorem unusable_date_range_spends_nothing (db : Database) (userId : Z)
    (budget : Budget.t) :
  sql_date (Budget.startDate budget) = None
  \/ sql_date (Budget.endDate budget) = None
  \/ (exists lo hi,
        sql_date (Budget.startDate budget) = Some lo
        /\ sql_date (Budget.endDate budget) = Some hi
        /\ String.ltb hi lo = true) ->
  calculateBudgetSpent db userId budget = 0%float.
Proof.
  intros Hrange.
  assert (Hnever : forall d,
             date_between d (Budget.startDate budget) (Budget.endDate budget)
             = false).
  { intros d. unfold date_between.
    destruct (sql_date d) as [d' |]; [| reflexivity].
    destruct Hrange as [-> | [-> | (lo & hi & -> & -> & Hlt)]];
      [reflexivity | now destruct (sql_date _) |].
    destruct (String.leb lo d') eqn:E1; [| reflexivity].
    destruct (String.leb d' hi) eqn:E2; [| reflexivity].
    apply string_ltb_not_leb in Hlt.
    rewrite (string_leb_trans _ _ _ E1 E2) in Hlt. discriminate. }
  unfold calculateBudgetSpent.
  erewrite filter_ext with (g := fun _ => false).
  - induction (expenses db); [reflexivity | assumption].
  - intros e. now rewrite Hnever, andb_false_r.
Qed.

(** ** One user's results depend on that user's rows only *)

Lemma filter_andb {A : Type} (f g : A -> bool) (l : list A) :
  filter (fun x => f x && g x) l = filter g (filter f l).
Proof.
  induction l as [| x l IH]; cbn; [reflexivity |].
  destruct (f x); cbn; [destruct (g x) |]; now rewrite IH.
Qed.

Lemma calculateBudgetSpent_own (db1 db2 : Database) (userId : Z) (b : Budget.t) :
  own_expenses userId db1 = own_expenses userId db2 ->
  calculateBudgetSpent db1 userId b = calculateBudgetSpent db2 userId b.
Proof.
  unfold own_expenses, calculateBudgetSpent. intros H.
  set (rest := fun e : Expense.t =>
                 date_between (Expense.purchase_date e)
                   (Budget.startDate b) (Budget.endDate b)
                 && match truthy_string (Budget.category b) with
                    | Some c => String.eqb (Expense.category e) c
                    | None => true
                    end).
  assert (Hsplit : forall l,
             filter (fun e =>
                       (Expense.userId e =? userId)
                       && date_between (Expense.purchase_date e)
                            (Budget.startDate b) (Budget.endDate b)
                       && match truthy_string (Budget.category b) with
                          | Some c => String.eqb (Expense.category e) c
                          | None => true
                          end) l
             = filter rest (filter (fun e => Expense.userId e =? userId) l)).
  { intros l. rewrite <- filter_andb. apply filter_ext.
    intros e. unfold rest. now rewrite andb_assoc. }
  now rewrite !Hsplit, H.
Qed.

Lemma fold_left_ext_step {A B : Type} (f g : A -> B -> A) (l : list B) :
  (forall a b, f a b = g a b) -> forall a, fold_left f l a = fold_left g l a.
Proof.
  intros H. induction l as [| b l IH]; intros a; cbn; [reflexivity |].
  now rewrite H, IH.
Qed.

Lemma results_of_own_rows (db1 db2 : Database) (userId : Z) :
  own_budgets userId db1 = own_budgets userId db2 ->
  own_expenses userId db1 = own_expenses userId db2 ->
  getBudgetAnalysis db1 userId = getBudgetAnalysis db2 userId
  /\ getBudgetAlerts db1 userId = getBudgetAlerts db2 userId.
Proof.
  unfold own_budgets. intros Hb He.
  unfold getBudgetAnalysis, getBudgetAlerts, getUserBudgets. rewrite Hb.
  split.
  - rewrite (fold_left_ext_step (analysis_step db1 userId)
               (analysis_step db2 userId)); [reflexivity |].
    intros a b. unfold analysis_step.
    now rewrite (calculateBudgetSpent_own db1 db2 userId b He).
  - rewrite (fold_left_ext_step (alerts_step db1 userId)
               (alerts_step db2 userId)); [reflexivity |].
    intros a b. unfold alerts_step.
    now rewrite (calculateBudgetSpent_own db1 db2 userId b He).
Qed.

(** X9.  The analysis and the alerts of a user are computed from that
    user's budget rows and expense rows alone: two stores that agree on
    them give the same results, whatever the other users' rows are. *)
Theorem results_depend_on_own_rows_only (db1 db2 : Database) (userId : Z) :
  own_budgets userId db1 = own_budgets userId db2 ->
  own_expenses userId db1 = own_expenses userId db2 ->
  getBudgetAnalysis db1 userId = getBudgetAnalysis db2 userId
  /\ getBudgetAlerts db1 userId = getBudgetAlerts db2 userId.
Proof.
  intros Hb He. split.
  - exact (proj1 (results_of_own_rows db1 db2 userId Hb He)).
  - exact (proj2 (results_of_own_rows db1 db2 userId Hb He)).
Qed.

Lemma own_budgets_after_update (now : string) (budgetId userId other : Z)
    (updates : list BudgetField) (db : Database) :
  other <> userId ->
  own_budgets other (fst (updateBudget now budgetId userId updates db))
  = own_budgets other db.
Proof.
  intros Hother. unfold own_budgets.
  unfold updateBudget. fold allowed.
  destruct (List.length (filter allowed updates) =? 0)%nat; [reflexivity |].
  cbn [fst budgets]. unfold sql_update.
  induction (budgets db) as [| x rows IH]; cbn; [reflexivity |].
  destruct (matches budgetId userId x) eqn:Hm.
  - pose proof (set_updatedAt_frame updates now x _
                  (fold_set_column_frame updates x)) as (_ & Hu & _).
    fold allowed. rewrite Hu.
    unfold matches in Hm. apply andb_prop in Hm. destruct Hm as [_ Hm].
    apply Z.eqb_eq in Hm. rewrite Hm.
    destruct (userId =? other) eqn:E; [apply Z.eqb_eq in E; congruence |].
    exact IH.
  - now rewrite IH.
Qed.

Lemma own_budgets_after_delete (budgetId userId other : Z) (db : Database) :
  other <> userId ->
  own_budgets other (fst (deleteBudget budgetId userId db)) = own_budgets other db.
Proof.
  intros Hother. unfold own_budgets, deleteBudget, sql_delete. cbn [fst budgets].
  induction (budgets db) as [| x rows IH]; cbn; [reflexivity |].
  destruct (matches budgetId userId x) eqn:Hm; cbn; [| now rewrite IH].
  unfold matches in Hm. apply andb_prop in Hm. destruct Hm as [_ Hm].
  apply Z.eqb_eq in Hm. rewrite Hm.
  destruct (userId =? other) eqn:E; [apply Z.eqb_eq in E; congruence |].
  exact IH.
Qed.

Lemma own_budgets_after_create (now : string) (userId other : Z)
    (budgetData : BudgetData.t) (db : Database) :
  other <> userId ->
  own_budgets other (fst (createBudget now userId budgetData db))
  = own_budgets other db.
Proof.
  intros Hother. unfold own_budgets. rewrite createBudget_persists.
  cbn [fst budgets]. rewrite filter_app. cbn [filter Budget.userId].
  destruct (userId =? other) eqn:E; [apply Z.eqb_eq in E; congruence |].
  apply app_nil_r.
Qed.

(** X10.  What one user creates, updates or deletes never changes the
    analysis or the alerts of another user. *)
Theorem writes_leave_other_users_results (now : string) (budgetId userId other : Z)
    (budgetData : BudgetData.t) (updates : list BudgetField) (db : Database) :
  other <> userId ->
  forall db',
    db' = fst (createBudget now userId budgetData db)
    \/ db' = fst (updateBudget now budgetId userId updates db)
    \/ db' = fst (deleteBudget budgetId userId db) ->
    getBudgetAnalysis db' other = getBudgetAnalysis db other
    /\ getBudgetAlerts db' other = getBudgetAlerts db other.
Proof.
  intros Hother db' Hdb'.
  apply results_of_own_rows.
  - destruct Hdb' as [-> | [-> | ->]].
    + now apply own_budgets_after_create.
    + now apply own_budgets_after_update.
    + now apply own_budgets_after_delete.
  - destruct Hdb' as [-> | [-> | ->]].
    + now rewrite createBudget_persists.
    + unfold updateBudget.
      now destruct (List.length _ =? 0)%nat.
    + reflexivity.
Qed.

(** ** Budgets that are gone or switched off *)

Lemma evaluated_ids (db : Database) (userId budgetId : Z) :
  (forall b, In b (budgets db) -> Budget.userId b = userId ->
             Budget.id b = budgetId -> truthy_int (Budget.isActive b) = false) ->
  exists a alerts,
    getBudgetAnalysis db userId = Resolved a
    /\ getBudgetAlerts db userId = Resolved alerts
    /\ ~ In budgetId
         (map BudgetPerformance.budgetId (BudgetAnalysis.budgetPerformance a))
    /\ ~ In budgetId (map BudgetAlert.budgetId alerts).
Proof.
  intros Hoff.
  assert (Hactive : forall b, In b (active db userId) -> Budget.id b <> budgetId).
  { intros b Hb Hid.
    apply (Permutation_in _ (active_perm db userId)) in Hb.
    apply filter_In in Hb. destruct Hb as [Hb Hon].
    apply filter_In in Hb. destruct Hb as [Hb Hu]. apply Z.eqb_eq in Hu.
    rewrite (Hoff b Hb Hu Hid) in Hon. discriminate. }
  rewrite getBudgetAnalysis_eq, getBudgetAlerts_eq.
  eexists; eexists. split; [reflexivity |]. split; [reflexivity |].
  cbn [BudgetAnalysis.budgetPerformance]. split.
  - rewrite map_map. intros Hin. apply in_map_iff in Hin.
    destruct Hin as (b & Hid & Hb).
    destruct (performance_of_fields db userId b) as (Hpid & _).
    rewrite Hpid in Hid. now apply (Hactive b).
  - intros Hin. apply in_map_iff in Hin. destruct Hin as (al & Hid & Hal).
    apply in_flat_map in Hal. destruct Hal as (b & Hb & Hal).
    apply alerts_step_In in Hal. destruct Hal as (Halid & _).
    apply (Hactive b Hb). congruence.
Qed.

(** X11.  After [deleteBudget(budgetId, userId)] the analysis of that user
    has no record, and the alerts no alert, for [budgetId]. *)
Theorem deleted_budget_is_not_evaluated (budgetId userId : Z) (db : Database) :
  exists a alerts,
    getBudgetAnalysis (fst (deleteBudget budgetId userId db)) userId = Resolved a
    /\ getBudgetAlerts (fst (deleteBudget budgetId userId db)) userId
       = Resolved alerts
    /\ ~ In budgetId
         (map BudgetPerformance.budgetId (BudgetAnalysis.budgetPerformance a))
    /\ ~ In budgetId (map BudgetAlert.budgetId alerts).
Proof.
  apply evaluated_ids. intros b Hb Hu Hid. exfalso.
  unfold deleteBudget, sql_delete in Hb. cbn [fst budgets] in Hb.
  apply filter_In in Hb. destruct Hb as [_ Hb].
  unfold matches in Hb. rewrite Hu, Hid, !Z.eqb_refl in Hb. discriminate.
Qed.

(** X12.  After [updateBudget] with entries of distinct keys, one of them
    [isActive: false], the analysis of that user has no record, and the
    alerts no alert, for [budgetId]. *)
Theorem deactivated_budget_is_not_evaluated (now : string) (budgetId userId : Z)
    (updates : list BudgetField) (db : Database) :
  NoDup (map key updates) ->
  In (f_isActive false) updates ->
  exists a alerts,
    getBudgetAnalysis (fst (updateBudget now budgetId userId updates db)) userId
    = Resolved a
    /\ getBudgetAlerts (fst (updateBudget now budgetId userId updates db)) userId
       = Resolved alerts
    /\ ~ In budgetId
         (map BudgetPerformance.budgetId (BudgetAnalysis.budgetPerformance a))
    /\ ~ In budgetId (map BudgetAlert.budgetId alerts).
Proof.
  intros Hkeys Hoff. apply evaluated_ids. intros b' Hb' Hu Hid.
  assert (Hsome : existsb allowed updates = true)
    by (apply existsb_exists; exists (f_isActive false); now split).
  unfold updateBudget in Hb'. fold allowed in Hb'.
  rewrite filter_length_0, Hsome in Hb'. cbn [negb fst budgets] in Hb'.
  unfold sql_update in Hb'. apply in_map_iff in Hb'.
  destruct Hb' as (b & Hb' & _).
  destruct (matches budgetId userId b) eqn:Hm.
  - subst b'.
    assert (Hheld := fold_set_column_holds (filter allowed updates)
                       (filter_keys_NoDup allowed updates Hkeys)
                       (f_isActive false) b).
    destruct (fold_left _ (filter allowed updates) b) as [? ? ? ? ? ? ? ? ? act ? ?].
    cbn in Hheld |- *.
    assert (Hin : In (f_isActive false) (filter allowed updates))
      by (apply filter_In; now split).
    specialize (Hheld Hin). injection Hheld as Hact. now rewrite <- Hact.
  - subst b'. unfold matches in Hm.
    rewrite Hu, Hid, !Z.eqb_refl in Hm. discriminate.
Qed.

(** ** The two evaluations tell the same story *)

Lemma alerts_step_record (db : Database) (userId : Z) (b : Budget.t)
    (al : BudgetAlert.t) :
  In al (alerts_step db userId [] b) ->
  let p := performance_of db userId b in
  BudgetPerformance.budgetId p = BudgetAlert.budgetId al
  /\ BudgetPerformance.name p = BudgetAlert.budgetName al
  /\ BudgetPerformance.spent p = BudgetAlert.currentSpent al
  /\ BudgetPerformance.budgetAmount p = BudgetAlert.budgetAmount al
  /\ BudgetPerformance.percentageUsed p = BudgetAlert.percentageUsed al
  /\ BudgetPerformance.status p <> Status.under.
Proof.
  unfold alerts_step, performance_of, analysis_step.
  cbn [BudgetAnalysis.budgetPerformance app].
  destruct (Budget.alertThreshold b <=? _)%float; [| intros []].
  destruct (100 <=? _)%float; [| destruct (90 <=? _)%float];
    (intros [<- | []]; cbn; repeat split; discriminate).
Qed.

(** X14.  Every alert repeats a performance record of the analysis: same
    budget id and name, same spent and budget amounts, same rounded
    percentage; and the status of that record is not [under]. *)
Theorem alerts_repeat_performance_records (db : Database) (userId : Z) :
  exists a alerts,
    getBudgetAnalysis db userId = Resolved a
    /\ getBudgetAlerts db userId = Resolved alerts
    /\ Forall
         (fun al =>
            exists p,
              In p (BudgetAnalysis.budgetPerformance a)
              /\ BudgetPerformance.budgetId p = BudgetAlert.budgetId al
              /\ BudgetPerformance.name p = BudgetAlert.budgetName al
              /\ BudgetPerformance.spent p = BudgetAlert.currentSpent al
              /\ BudgetPerformance.budgetAmount p = BudgetAlert.budgetAmount al
              /\ BudgetPerformance.percentageUsed p = BudgetAlert.percentageUsed al
              /\ BudgetPerformance.status p <> Status.under)
         alerts.
Proof.
  rewrite getBudgetAnalysis_eq, getBudgetAlerts_eq.
  eexists; eexists. split; [reflexivity |]. split; [reflexivity |].
  cbn [BudgetAnalysis.budgetPerformance].
  apply Forall_forall. intros al Hal.
  apply in_flat_map in Hal. destruct Hal as (b & Hb & Hal).
  exists (performance_of db userId b). split.
  - now apply in_map.
  - now apply alerts_step_record.
Qed.

(** ** Update without an updatable field *)

(** X15.  [updateBudget] rejects, with [No valid fields to update], exactly
    when no entry has an updatable key, an empty update included; it then
    leaves the store as it was.  With an updatable entry it resolves. *)
Theorem updateBudget_rejects_without_updatable_field (now : string)
    (budgetId userId : Z) (updates : list BudgetField) (db : Database) :
  (Forall (fun f => ~ In (key f) allowedFields) updates
   <-> updateBudget now budgetId userId updates db
       = (db, Rejected "No valid fields to update"))
  /\ (Exists (fun f => In (key f) allowedFields) updates
      <-> exists row,
            snd (updateBudget now budgetId userId updates db) = Resolved row).
Proof.
  assert (Hinc : forall f, In (key f) allowedFields <-> allowed f = true).
  { intros f. unfold allowed. generalize (key f) as k. intros k.
    induction allowedFields as [| x l IH]; cbn; [split; [intros [] | discriminate] |].
    rewrite orb_true_iff, <- IH, String.eqb_eq. tauto. }
  assert (Hex : existsb allowed updates = true
                <-> Exists (fun f => In (key f) allowedFields) updates).
  { rewrite existsb_exists, Exists_exists.
    split; intros (f & Hf & Ha); exists f; split; trivial; now apply Hinc. }
  assert (Hall : existsb allowed updates = false
                 <-> Forall (fun f => ~ In (key f) allowedFields) updates).
  { rewrite Forall_Exists_neg, <- Hex. now destruct (existsb allowed updates). }
  unfold updateBudget. fold allowed. rewrite filter_length_0.
  rewrite <- Hall, <- Hex.
  destruct (existsb allowed updates); cbn [negb snd]; split; split;
    try reflexivity; try discriminate; try (intros; reflexivity).
  - intros _. eexists; reflexivity.
  - intros (row & H). discriminate.
Qed.

End BudgetService.

(** ** An empty category *)

(** C10.  A budget created with the empty string as category is created
    exactly as one without a category, and the stored row has [category]
    null.  The query of its spend selects every expense of the user in the
    date range, whatever the category, and the spend is the sum of their
    amounts with [0] for none: over January expenses of 100, 250 and 40 in
    three categories it is 390. *)
Theorem empty_category_means_all_categories
    (sql_date : string -> option string) (now : string) (userId : Z)
    (name : string) (amount : float) (period : Period)
    (startDate endDate : string) (alertThreshold : float) (isActive : bool)
    (db : Database) :
  let data category :=
    BudgetData.mk name amount category period startDate endDate
      alertThreshold isActive in
  createBudget now userId (data (Some "")) db
  = createBudget now userId (data None) db
  /\ exists row,
       budgets (fst (createBudget now userId (data (Some "")) db))
       = budgets db ++ [row]
       /\ Budget.category row = None
       /\ (forall ledger user e,
             In e (spent_rows sql_date ledger user row)
             <-> In e (expenses ledger)
                 /\ Expense.userId e = user
                 /\ date_between sql_date (Expense.purchase_date e)
                      startDate endDate = true)
       /\ (forall ledger user,
             calculateBudgetSpent sql_date ledger user row
             = let total :=
                 coalesce
                   (sql_sum
                      (map Expense.amount (spent_rows sql_date ledger user row)))
                   0 in
               if Js.truthy total then total else 0%float)
       /\ (startDate = "2025-01-01" -> endDate = "2025-01-31" ->
           calculateBudgetSpent iso_date three_category_db 1 row = 390%float).
Proof.
  intros data. rewrite !createBudget_persists. cbn [truthy_string data].
  split; [reflexivity |].
  set (row := Budget.mk (next_id db) userId name amount None period startDate
                endDate alertThreshold (if isActive then 1 else 0) now now).
  exists row. split; [reflexivity |]. split; [reflexivity |].
  split; [| split].
  - intros ledger user e.
    exact (spent_rows_without_category sql_date ledger user row e eq_refl).
  - reflexivity.
  - intros -> ->. reflexivity.
Qed.

(** On the same expenses a budget with the category [Snacks] spends 250,
    and one created for February spends 7. *)
Example category_budget_spends_its_category :
  calculateBudgetSpent iso_date three_category_db 1
    (sample_budget 1 1 "Snacks" 300 (Some "Snacks") 80 1 "2025-01-01 08:00:00")
  = 250%float
  /\ calculateBudgetSpent iso_date three_category_db 1
       (Budget.mk 2 1 "February" 300 None monthly "2025-02-01" "2025-02-28" 80 1
          "2025-02-01 08:00:00" "2025-02-01 08:00:00")
     = 7%float.
Proof. split; vm_compute; reflexivity. Qed.

(** ** Rounding of the percentage *)

(** C6, as stated, fails.  With 0.23 spent of 200 the ratio is below 0.115
    and prints as [0.11] to two decimals, yet the record's
    [percentageUsed] is 0.12: the product by 100 is rounded to 11.5 first.
    With [2^1017] spent of 1 the ratio is finite and integral, yet
    [percentageUsed] is [Infinity]: the product by 100 overflows. *)
Lemma percentage_not_the_ratio_to_two_decimals :
  percentages (getBudgetAnalysis iso_date (one_budget_db 200 80 (23 / 100)) 1)
  = [(12 / 100)%float]
  /\ Js.toFixed2 Js.integral_toString
       (percentage (23 / 100) (food_budget 200 80)) = "0.11"
  /\ Js.toFixed2 Js.integral_toString (12 / 100)%float = "0.12"
  /\ percentages (getBudgetAnalysis iso_date (one_budget_db 1 80 0x1p1017) 1)
     = [infinity]
  /\ PrimFloat.is_finite (percentage 0x1p1017 (food_budget 1 80)) = true
  /\ Js.Math_round (percentage 0x1p1017 (food_budget 1 80))
     = percentage 0x1p1017 (food_budget 1 80).
Proof. repeat split; vm_compute; reflexivity. Qed.


(** ** Worked examples *)

(** C1, as stated, fails: user 1 updates budget 1, which user 2 owns.  No
    row matches, nothing is rejected, and the call resolves with the row
    of user 2. *)
Lemma updateBudget_resolves_with_other_owner_row :
  existsb (matches 1 1) (budgets other_owner_db) = false
  /\ updateBudget "2025-02-01 09:00:00" 1 1 [f_name "Mine"] other_owner_db
     = (other_owner_db,
        Resolved
          (Some (sample_budget 1 2 "Rent" 900 None 80 1 "2025-01-01 08:00:00"))).
Proof. split; reflexivity. Qed.

(** C1, amended, at that call with a [userId] entry added. *)
Lemma updateBudget_without_match_witness :
  existsb (matches 1 1) (budgets other_owner_db) = false
  /\ fst (updateBudget "2025-02-01 09:00:00" 1 1 [f_name "Mine"; f_userId 1]
            other_owner_db) = other_owner_db.
Proof.
  split; [reflexivity |].
  apply (updateBudget_without_match "2025-02-01 09:00:00" 1 1
           [f_name "Mine"; f_userId 1] other_owner_db).
  reflexivity.
Defined.

(** C2 at the invalid data of the test: nothing is validated, and the row
    with the negative amount, the threshold above 100 and the inverted date
    range is in the store afterwards. *)
Theorem createBudget_persists_invalid_data :
  budgets (fst (createBudget "2025-01-01 00:00:00" 1 invalidBudgetData empty_db))
  = [Budget.mk 1 1 "" (-100) None monthly "2025-01-01" "2024-12-31" 150 1
       "2025-01-01 00:00:00" "2025-01-01 00:00:00"].
Proof. rewrite createBudget_persists. reflexivity. Qed.

(** C3, as stated, fails: a stored budget of amount [0] with [5] spent is
    evaluated without error, and the percentage is [Infinity] in the
    performance record and in the alert. *)
Lemma zero_amount_percentage_is_infinity :
  getBudgetAnalysis iso_date (one_budget_db 0 80 5) 1
  = Resolved
      (BudgetAnalysis.mk 1 1 0 5 1 (-5)
         [BudgetPerformance.mk 1 "Food" 0 5 (-5) infinity Status.over])
  /\ getBudgetAlerts iso_date Js.integral_toString (one_budget_db 0 80 5) 1
     = Resolved
         [BudgetAlert.mk 1 "Food" 5 0 infinity AlertLevel.exceeded
            "You've exceeded your Food budget by $5.00"]
  /\ PrimFloat.is_infinity infinity = true.
Proof. repeat split; vm_compute; reflexivity. Qed.

(** With nothing spent the percentage is [NaN] and the status [under]. *)
Example zero_amount_nothing_spent_is_nan :
  getBudgetAnalysis iso_date (one_budget_db 0 80 0) 1
  = Resolved
      (BudgetAnalysis.mk 1 1 0 0 0 0
         [BudgetPerformance.mk 1 "Food" 0 0 0 nan Status.under]).
Proof. vm_compute; reflexivity. Qed.

(** C4, as stated, fails: 79996 spent of 100000 with threshold 80.  The
    record's [percentageUsed] is [80], which is at least the threshold and
    below [100], and its status is [under], not [warning]. *)
Lemma status_under_at_rounded_threshold :
  active (one_budget_db 100000 80 79996) 1 = [food_budget 100000 80]
  /\ getBudgetAnalysis iso_date (one_budget_db 100000 80 79996) 1
     = Resolved
         (BudgetAnalysis.mk 1 1 100000 79996 0 20004
            [BudgetPerformance.mk 1 "Food" 100000 79996 20004 80 Status.under])
  /\ (Budget.alertThreshold (food_budget 100000 80) <=? 80)%float = true
  /\ (80 <? 100)%float = true.
Proof. repeat split; vm_compute; reflexivity. Qed.

(** C5, as stated, fails: 89996 spent of 100000 with threshold 80.  The
    alert's [percentageUsed] is [90], which is at least [90] and below
    [100], and its level is [warning], not [danger].  With 79996 spent the
    rounded percentage is [80], the threshold, and no alert is emitted. *)
Lemma alert_warning_at_rounded_ninety :
  getBudgetAlerts iso_date Js.integral_toString (one_budget_db 100000 80 89996) 1
  = Resolved
      [BudgetAlert.mk 1 "Food" 89996 100000 90 AlertLevel.warning
         "You've used 90% of your Food budget"]
  /\ (90 <=? 90)%float = true /\ (90 <? 100)%float = true
  /\ getBudgetAlerts iso_date Js.integral_toString
       (one_budget_db 100000 80 79996) 1 = Resolved []
  /\ round2
       (percentage
          (calculateBudgetSpent iso_date (one_budget_db 100000 80 79996) 1
             (food_budget 100000 80))
          (food_budget 100000 80))
     = Budget.alertThreshold (food_budget 100000 80).
Proof. repeat split; vm_compute; reflexivity. Qed.

(** An [id] or [userId] entry does not reassign a budget, and an update
    whose only entries are such is rejected. *)
Example updateBudget_ignores_id_and_userId :
  updateBudget "2025-02-01 09:00:00" 1 2 [f_id 7; f_userId 1; f_amount 1000]
    other_owner_db
  = (mkDatabase
       [Budget.mk 1 2 "Rent" 1000 None monthly "2025-01-01" "2025-01-31" 80 1
          "2025-01-01 08:00:00" "2025-02-01 09:00:00"]
       1 [],
     Resolved
       (Some
          (Budget.mk 1 2 "Rent" 1000 None monthly "2025-01-01" "2025-01-31" 80 1
             "2025-01-01 08:00:00" "2025-02-01 09:00:00")))
  /\ updateBudget "2025-02-01 09:00:00" 1 2 [f_id 7; f_userId 1] other_owner_db
     = (other_owner_db, Rejected "No valid fields to update").
Proof. split; vm_compute; reflexivity. Qed.

(** The examples of the specification: 425 of 500 is 85 percent. *)
Example percentage_425_of_500 :
  getBudgetAnalysis iso_date (one_budget_db 500 80 425) 1
  = Resolved
      (BudgetAnalysis.mk 1 1 500 425 0 75
         [BudgetPerformance.mk 1 "Food" 500 425 75 85 Status.warning]).
Proof. vm_compute; reflexivity. Qed.

(** A budget of 200 with threshold 80: 170 spent warns, 185 is close to the
    limit, 220 exceeds it by 20. *)
Example alert_escalation :
  getBudgetAlerts iso_date Js.integral_toString (one_budget_db 200 80 170) 1
  = Resolved
      [BudgetAlert.mk 1 "Food" 170 200 85 AlertLevel.warning
         "You've used 85% of your Food budget"]
  /\ getBudgetAlerts iso_date Js.integral_toString (one_budget_db 200 80 185) 1
     = Resolved
         [BudgetAlert.mk 1 "Food" 185 200 92.5 AlertLevel.danger
            "You're close to exceeding your Food budget (93% used)"]
  /\ getBudgetAlerts iso_date Js.integral_toString (one_budget_db 200 80 220) 1
     = Resolved
         [BudgetAlert.mk 1 "Food" 220 200 110 AlertLevel.exceeded
            "You've exceeded your Food budget by $20.00"]
  /\ getBudgetAlerts iso_date Js.integral_toString (one_budget_db 200 80 159) 1
     = Resolved [].
Proof. repeat split; vm_compute; reflexivity. Qed.

(** Two active budgets, 100 of 300 and 250 of 200, and an inactive one. *)
Example portfolio_totals :
  exists performance,
    getBudgetAnalysis iso_date portfolio_db 1
    = Resolved (BudgetAnalysis.mk 3 2 500 350 1 150 performance)
    /\ map (fun p => (BudgetPerformance.budgetId p, BudgetPerformance.spent p,
                      BudgetPerformance.remaining p, BudgetPerformance.status p))
         performance
       = [(2, 250%float, (-50)%float, Status.over);
          (1, 100%float, 200%float, Status.under)].
Proof. eexists; split; vm_compute; reflexivity. Qed.

(** C9 on the portfolio: budget 2 of user 1 is deleted twice. *)
Lemma deleteBudget_scoped_and_idempotent_witness :
  NoDup (map Budget.id (budgets portfolio_db))
  /\ deleteBudget 2 1 (fst (deleteBudget 2 1 portfolio_db))
     = (fst (deleteBudget 2 1 portfolio_db), Resolved tt).
Proof.
  assert (H : NoDup (map Budget.id (budgets portfolio_db))).
  { cbn. repeat constructor; cbn; intuition discriminate. }
  split; [exact H |].
  apply (deleteBudget_scoped_and_idempotent 2 1 portfolio_db H).
Defined.

(** X3 on the store whose budget 1 belongs to user 2: the amount becomes
    1000 and the category [Housing]; the [id] entry is dropped. *)
Lemma updateBudget_applies_entries_witness :
  exists b',
    snd (updateBudget "2025-02-01 09:00:00" 1 2
           [f_amount 1000; f_id 7; f_category "Housing"] other_owner_db)
    = Resolved (Some b')
    /\ Budget.amount b' = 1000%float
    /\ Budget.category b' = Some "Housing"
    /\ Budget.id b' = 1
    /\ Budget.updatedAt b' = "2025-02-01 09:00:00".
Proof.
  destruct (updateBudget_applies_entries "2025-02-01 09:00:00" 1 2
              [f_amount 1000; f_id 7; f_category "Housing"] other_owner_db
              (sample_budget 1 2 "Rent" 900 None 80 1 "2025-01-01 08:00:00"))
    as (b' & Hres & Hin & Hup & Hforce).
  - repeat constructor. intros [].
  - repeat constructor; cbn; intuition discriminate.
  - now left.
  - reflexivity.
  - reflexivity.
  - exists b'. split; [exact Hres |]. split; [| split; [| split]].
    + apply (Hforce (f_amount 1000)); [now left | reflexivity].
    + apply (Hforce (f_category "Housing")); [cbn; tauto | reflexivity].
    + destruct Hin as [<- | []]. reflexivity.
    + exact Hup.
Defined.

(** X4 on the portfolio of user 1. *)
Lemma alerts_agree_with_statuses_witness :
  exists a alerts,
    getBudgetAnalysis iso_date portfolio_db 1 = Resolved a
    /\ getBudgetAlerts iso_date Js.integral_toString portfolio_db 1 = Resolved alerts
    /\ map BudgetAlert.budgetId alerts
       = map BudgetPerformance.budgetId
           (filter not_under (BudgetAnalysis.budgetPerformance a))
    /\ map BudgetAlert.budgetId (filter is_exceeded alerts)
       = map BudgetPerformance.budgetId
           (filter is_over (BudgetAnalysis.budgetPerformance a)).
Proof.
  apply (alerts_agree_with_statuses iso_date Js.integral_toString portfolio_db 1).
  repeat constructor.
Defined.

(** X6 for user 7, who has no budget in the portfolio. *)
Lemma no_budget_empty_analysis_witness :
  getBudgetAnalysis iso_date portfolio_db 7
  = Resolved (BudgetAnalysis.mk 0 0 0%float 0%float 0 0%float [])
  /\ getBudgetAlerts iso_date Js.integral_toString portfolio_db 7 = Resolved [].
Proof.
  apply (no_budget_empty_analysis iso_date Js.integral_toString portfolio_db 7).
  intros b [<- | [<- | [<- | []]]]; discriminate.
Defined.

(** X8 on the row the test's invalid data leaves in the store: it ends
    before it starts. *)
Lemma unusable_date_range_spends_nothing_witness :
  calculateBudgetSpent iso_date portfolio_db 1
    (Budget.mk 1 1 "" (-100) None monthly "2025-01-01" "2024-12-31" 150 1
       "2025-01-01 00:00:00" "2025-01-01 00:00:00")
  = 0%float.
Proof.
  apply (unusable_date_range_spends_nothing iso_date portfolio_db 1).
  right. right. exists "2025-01-01", "2024-12-31". repeat split.
Defined.

(** X9 on two stores that differ in the rows of user 2 only. *)
Lemma results_depend_on_own_rows_only_witness :
  getBudgetAnalysis iso_date portfolio_db 1
  = getBudgetAnalysis iso_date portfolio_variant_db 1
  /\ getBudgetAlerts iso_date Js.integral_toString portfolio_db 1
     = getBudgetAlerts iso_date Js.integral_toString portfolio_variant_db 1.
Proof.
  apply (results_depend_on_own_rows_only iso_date Js.integral_toString
           portfolio_db portfolio_variant_db 1); reflexivity.
Defined.

(** X10: user 2 creates a budget in the portfolio; user 1 sees no change. *)
Lemma writes_leave_other_users_results_witness :
  getBudgetAnalysis iso_date
    (fst (createBudget "2025-03-01 10:00:00" 2 invalidBudgetData portfolio_db)) 1
  = getBudgetAnalysis iso_date portfolio_db 1
  /\ getBudgetAlerts iso_date Js.integral_toString
       (fst (createBudget "2025-03-01 10:00:00" 2 invalidBudgetData portfolio_db)) 1
     = getBudgetAlerts iso_date Js.integral_toString portfolio_db 1.
Proof.
  apply (writes_leave_other_users_results iso_date Js.integral_toString
           "2025-03-01 10:00:00" 0 2 1 invalidBudgetData [] portfolio_db).
  - discriminate.
  - left. reflexivity.
Defined.

(** X12: user 1 switches budget 2 of the portfolio off. *)
Lemma deactivated_budget_is_not_evaluated_witness :
  exists a alerts,
    getBudgetAnalysis iso_date
      (fst (updateBudget "2025-03-01 10:00:00" 2 1 [f_isActive false] portfolio_db))
      1 = Resolved a
    /\ getBudgetAlerts iso_date Js.integral_toString
         (fst (updateBudget "2025-03-01 10:00:00" 2 1 [f_isActive false]
                 portfolio_db)) 1
       = Resolved alerts
    /\ ~ In 2 (map BudgetPerformance.budgetId (BudgetAnalysis.budgetPerformance a))
    /\ ~ In 2 (map BudgetAlert.budgetId alerts).
Proof.
  apply (deactivated_budget_is_not_evaluated iso_date Js.integral_toString
           "2025-03-01 10:00:00" 2 1 [f_isActive false] portfolio_db).
  - repeat constructor. intros [].
  - now left.
Defined.

